(** * skype-http: endpoint registration (src/lib/api/register-endpoint.ts)

    A shallow embedding of [registerEndpoint] and of the helpers it calls,
    followed by the properties of the handshake that the specification
    states.

    Conventions of the embedding.
    - A JavaScript string is a [string]: a sequence of code units, those
      below 256 (header values are ASCII on the wire).
    - A host is a name or [null], which is what Node's [url.parse] reports
      for a URL that has none; [undefined] is the [None] of an option.
    - [Dictionary<string>] is a JavaScript object used as a map: an
      association list in insertion order without duplicate keys.  Reading a
      key that is not there yields [undefined], here [None].
    - A JavaScript [number] that holds an integer is a [Z]; the result of
      [parseInt], which can be [NaN], is a [number].
    - An [async] function is a computation over the state of the outside
      world (clock and transport) that resolves, rejects, or is still
      pending when the recursion budget of the model is used up. *)

From Stdlib Require Import String Ascii List ZArith NArith Bool Lia.
From Stdlib Require Import DecimalString DecimalZ.
Import ListNotations.

Local Open Scope string_scope.
Local Open Scope Z_scope.

(** ** Strings *)

Module Str.

(** White space as [String.prototype.trim] and [parseInt] see it, on the
    code units below 256: TAB, LF, VT, FF, CR, SPACE and NO-BREAK SPACE. *)
Definition is_whitespace (c : ascii) : bool :=
  let n := N_of_ascii c in
  (((9 <=? n) && (n <=? 13)) || (n =? 32) || (n =? 160))%N.

Definition is_digit (c : ascii) : bool :=
  let n := N_of_ascii c in
  ((48 <=? n) && (n <=? 57))%N.

Definition digit_value (c : ascii) : Z := Z.of_N (N_of_ascii c) - 48.

Fixpoint trimStart (s : string) : string :=
  match s with
  | EmptyString => EmptyString
  | String c s' => if is_whitespace c then trimStart s' else s
  end.

Fixpoint trimEnd (s : string) : string :=
  match s with
  | EmptyString => EmptyString
  | String c s' =>
      match trimEnd s' with
      | EmptyString => if is_whitespace c then EmptyString else String c EmptyString
      | t => String c t
      end
  end.

(** [s.trim()] *)
Definition trim (s : string) : string := trimEnd (trimStart s).

(** [s.split(sep)] for a one-character separator: never empty, the empty
    string splits into one empty segment. *)
Fixpoint split (sep : ascii) (s : string) : list string :=
  match s with
  | EmptyString => [EmptyString]
  | String c s' =>
      if Ascii.eqb c sep then EmptyString :: split sep s'
      else match split sep s' with
           | [] => [String c EmptyString]
           | seg :: rest => String c seg :: rest
           end
  end.

(** Cut [s] at the first occurrence of [c]: what [s.indexOf(c)] and the two
    [substring] calls around it compute; [None] when [c] does not occur. *)
Fixpoint cut (c : ascii) (s : string) : option (string * string) :=
  match s with
  | EmptyString => None
  | String a s' =>
      if Ascii.eqb a c then Some (EmptyString, s')
      else match cut c s' with
           | Some (k, v) => Some (String a k, v)
           | None => None
           end
  end.

Fixpoint contains (c : ascii) (s : string) : bool :=
  match s with
  | EmptyString => false
  | String a s' => Ascii.eqb a c || contains c s'
  end.

Definition starts_with_whitespace (s : string) : bool :=
  match s with
  | EmptyString => false
  | String c _ => is_whitespace c
  end.

Fixpoint ends_with_whitespace (s : string) : bool :=
  match s with
  | EmptyString => false
  | String c EmptyString => is_whitespace c
  | String _ s' => ends_with_whitespace s'
  end.

Fixpoint all_whitespace (s : string) : bool :=
  match s with
  | EmptyString => true
  | String c s' => is_whitespace c && all_whitespace s'
  end.

(** The longest prefix of decimal digits, and what follows it. *)
Fixpoint span_digits (s : string) : list ascii * string :=
  match s with
  | EmptyString => ([], EmptyString)
  | String c s' =>
      if is_digit c
      then let (ds, r) := span_digits s' in (c :: ds, r)
      else ([], s)
  end.

Definition digits_value (ds : list ascii) : Z :=
  fold_left (fun acc c => 10 * acc + digit_value c) ds 0.

(** [String(n)] for an integer [n] (below 10^21 in absolute value, where
    JavaScript prints every digit). *)
Definition of_Z (n : Z) : string := NilZero.string_of_int (Z.to_int n).

End Str.

(** ** Numbers and dates *)

(** A [number] that is either [NaN] or an integer.  The integer is the
    mathematical value; the double that JavaScript holds agrees with it up
    to 2^53, which is all [newDate] below lets through. *)
Inductive number : Type :=
| NaN
| Int (z : Z).

(** [parseInt(s, 10)]: skip leading white space, read an optional sign, then
    the longest run of decimal digits; [NaN] when that run is empty. *)
Definition parseInt10 (s : string) : number :=
  let s1 := Str.trimStart s in
  let '(sign, s2) :=
    match s1 with
    | String "-" r => (-1, r)
    | String "+" r => (1, r)
    | _ => (1, s1)
    end in
  match fst (Str.span_digits s2) with
  | [] => NaN
  | ds => Int (sign * Str.digits_value ds)
  end.

Definition times (k : Z) (n : number) : number :=
  match n with
  | NaN => NaN
  | Int z => Int (k * z)
  end.

(** A [Date]: its time value in milliseconds since the epoch, or the
    invalid date (time value [NaN]). *)
Inductive Date : Type :=
| InvalidDate
| ValidDate (ms : Z).

Definition maxTime : Z := 8640000000000000.

(** [new Date(n)]: TimeClip of the language.  An integer beyond [maxTime]
    gives the invalid date; [maxTime < 2^53], and 1000 is an integer, so a
    product that is let through was computed exactly by the doubles. *)
Definition newDate (n : number) : Date :=
  match n with
  | NaN => InvalidDate
  | Int t => if Z.abs t <=? maxTime then ValidDate t else InvalidDate
  end.

(** ** Dictionary<string> *)

Definition Dictionary : Type := list (string * string).

(** [d[k]] *)
Fixpoint dict_get (d : Dictionary) (k : string) : option string :=
  match d with
  | [] => None
  | (k', v) :: d' => if String.eqb k' k then Some v else dict_get d' k
  end.

(** [d[k] = v]: an existing key keeps its place, a new one goes last. *)
Fixpoint dict_set (d : Dictionary) (k v : string) : Dictionary :=
  match d with
  | [] => [(k, v)]
  | (k', v') :: d' =>
      if String.eqb k' k then (k', v) :: d' else (k', v') :: dict_set d' k v
  end.

Definition dict_keys (d : Dictionary) : list string := map fst d.

(** [!x] for [x] a string or [undefined]. *)
Definition falsy (x : option string) : bool :=
  match x with
  | None => true
  | Some EmptyString => true
  | Some _ => false
  end.

(** ** HeaderCodec (../utils) *)

(** Modelled from the spec: [stringifyHeaderParams] is imported from
    [../utils], which is not among the sources.  Spec 4.1: "renders each
    key/value pair as key=value, pairs joined by `; `"; no escaping. *)
Definition stringifyPair (kv : string * string) : string :=
  fst kv ++ "=" ++ snd kv.

Definition stringifyHeaderParams (params : Dictionary) : string :=
  String.concat "; " (map stringifyPair params).

(** Modelled from the spec: [parseHeaderParams] is imported from
    [../utils], which is not among the sources.  Spec 4.1: "splits on `;`,
    trims whitespace, splits each segment on the first `=` into key/value,
    collects into a mapping (last occurrence of a duplicate key wins)"; a
    malformed segment adds no key. *)
Definition parseSegment (seg : string) : option (string * string) :=
  Str.cut "=" (Str.trim seg).

Definition collectSegment (result : Dictionary) (seg : string) : Dictionary :=
  match parseSegment seg with
  | Some (key, value) => dict_set result key value
  | None => result
  end.

Definition parseHeaderParams (params : string) : Dictionary :=
  fold_left collectSegment (Str.split ";" params) [].

(** ** What the module imports

    The constants of [../consts], the helpers of [../utils],
    [../utils/hmac-sha256] and [../messages-uri], Node's [url.parse], the
    cookie store and the outside world (clock and network) are not part of
    the module: the embedding takes them as an interface. *)

Module Host.
(** The host of a URL as the code holds it at run time: a name, or [null],
    which is what Node's [url.parse] puts in [host] when the URL has none. *)
Inductive t : Type :=
| null
| name (s : string).

(** [a === b] *)
Definition eqb (a b : t) : bool :=
  match a, b with
  | null, null => true
  | name x, name y => String.eqb x y
  | _, _ => false
  end.

(** ["" + h] *)
Definition toString (h : t) : string :=
  match h with
  | null => "null"
  | name x => x
  end.
End Host.

Module Url.
(** The one field of Node's [Url] that the module reads.  Its declared type
    is [string | undefined]; what [url.parse] puts there is a string or
    [null].  [None] is [undefined]. *)
Record t : Type := { host : option Host.t }.
End Url.

Class Environment : Type := {
  (** state of the clock and of whatever the transport talks to *)
  World : Type;
  CookieStore : Type;
  (** [getCurrentTime] of [../utils]: reads the clock *)
  getCurrentTime : World -> Z * World;
  (** [hmacSha256] of [../utils/hmac-sha256], on three byte buffers *)
  hmacSha256 : list Byte.byte -> list Byte.byte -> list Byte.byte -> string;
  SKYPEWEB_LOCKANDKEY_APPID : string;
  SKYPEWEB_LOCKANDKEY_SECRET : string;
  SKYPEWEB_DEFAULT_MESSAGES_HOST : string;
  SKYPEWEB_CLIENTINFO_NAME : string;
  SKYPEWEB_CLIENTINFO_VERSION : string;
  (** [endpoints] of [../messages-uri], on whatever host it is handed *)
  messagesUri_endpoints : Host.t -> string;
  (** [url.parse] of Node, on a string *)
  url_parse : string -> Url.t;
}.

(** ** Interfaces *)

Module SkypeToken.
Record t : Type := { value : string }.
End SkypeToken.

Module Context.
Record t `{Environment} : Type := {
  skypeToken : SkypeToken.t;
  cookies : CookieStore;
}.
End Context.

Module RegistrationToken.
Record t : Type := {
  value : string;
  expirationDate : Date;
  endpointId : string;
  raw : string;
  host : Host.t;
}.
End RegistrationToken.

Module RegisterEndpointOptions.
Record t : Type := {
  messagesHost : option Host.t;
  retry : option Z;
}.
End RegisterEndpointOptions.

Module PostOptions.
Record t `{Environment} : Type := {
  uri : string;
  headers : Dictionary;
  cookies : CookieStore;
  body : string;
}.
End PostOptions.

Module Response.
Record t : Type := {
  statusCode : Z;
  headers : Dictionary;
}.
End Response.

(** How a POST ends: with a response, or with a failure of the transport. *)
Inductive PostResult : Type :=
| Responded (res : Response.t)
| Failed (cause : string).

Module HttpIo.
Record t `{Environment} : Type := {
  post : PostOptions.t -> World -> PostResult * World;
}.
End HttpIo.

(** What the handshake can throw. *)
Inductive Error `{Environment} : Type :=
| UnexpectedHttpStatusError
    (response : Response.t) (expected : list Z) (request : PostOptions.t)
| Incident (name : string) (data : option Response.t) (message : string)
| TypeError (message : string)
| IoError (cause : string).

Section Model.
Context `{Env : Environment}.

(** *** Promises *)

(** A promise as the caller sees it.  [Pending]: not settled within the
    number of attempts the model was given. *)
Inductive Promise (A : Type) : Type :=
| Resolved (a : A)
| Rejected (e : Error)
| Pending.
#[global] Arguments Resolved {A} a.
#[global] Arguments Rejected {A} e.
#[global] Arguments Pending {A}.

(** The world, and every POST made so far with its outcome. *)
Record State : Type := {
  world : World;
  log : list (PostOptions.t * PostResult);
}.

Definition Async (A : Type) : Type := State -> Promise A * State.

Definition ret {A} (a : A) : Async A := fun s => (Resolved a, s).

Definition throw {A} (e : Error) : Async A := fun s => (Rejected e, s).

Definition pending {A} : Async A := fun s => (Pending, s).

Definition bind {A B} (m : Async A) (k : A -> Async B) : Async B :=
  fun s =>
    match m s with
    | (Resolved a, s') => k a s'
    | (Rejected e, s') => (Rejected e, s')
    | (Pending, s') => (Pending, s')
    end.

(** [getCurrentTime()] *)
Definition currentTime : Async Z :=
  fun s =>
    let (t, w) := getCurrentTime (world s) in
    (Resolved t, {| world := w; log := log s |}).

(** [await io.post(requestOptions)], recorded in the log. *)
Definition await_post (io : HttpIo.t) (requestOptions : PostOptions.t)
  : Async Response.t :=
  fun s =>
    let (r, w) := HttpIo.post io requestOptions (world s) in
    let s' := {| world := w; log := log s ++ [(requestOptions, r)] |} in
    match r with
    | Responded res => (Resolved res, s')
    | Failed cause => (Rejected (IoError cause), s')
    end.

End Model.

Notation "x <- m ;; k" := (bind m (fun x => k))
  (at level 61, m at next level, right associativity).

(** ** register-endpoint.ts *)

Section RegisterEndpoint.
Context `{Env : Environment}.

(** The UTF-8 bytes of a code unit below 256: one byte below 128, two from
    there on. *)
Definition utf8 (c : ascii) : list Byte.byte :=
  let n := N_of_ascii c in
  if (n <? 128)%N then [byte_of_ascii c]
  else [byte_of_ascii (ascii_of_N (192 + n / 64));
        byte_of_ascii (ascii_of_N (128 + n mod 64))].

(** [Buffer.from(s, "utf8")] *)
Definition Buffer_from (s : string) : list Byte.byte :=
  flat_map utf8 (list_ascii_of_string s).

Definition getLockAndKeyResponse (time : Z) : string :=
  let inputBuffer := Buffer_from (Str.of_Z time) in
  let appIdBuffer := Buffer_from SKYPEWEB_LOCKANDKEY_APPID in
  let secretBuffer := Buffer_from SKYPEWEB_LOCKANDKEY_SECRET in
  hmacSha256 inputBuffer appIdBuffer secretBuffer.

(** [new Set([201, 301])] and [Set.prototype.has] *)
Definition expectedStatusCodes : list Z := [201; 301].

Definition has (codes : list Z) (code : Z) : bool := existsb (Z.eqb code) codes.

(** The [headers] object of the request. *)
Definition headers (apiContext : Context.t) (startTime : Z) : Dictionary :=
  let lockAndKeyResponse := getLockAndKeyResponse startTime in
  [ ("LockAndKey",
     stringifyHeaderParams
       [ ("appId", SKYPEWEB_LOCKANDKEY_APPID);
         ("time", Str.of_Z startTime);
         ("lockAndKeyResponse", lockAndKeyResponse) ]);
    ("ClientInfo",
     stringifyHeaderParams
       [ ("os", "Windows");
         ("osVer", "10");
         ("proc", "Win64");
         ("lcid", "en-us");
         ("deviceType", "1");
         ("country", "n/a");
         ("clientName", SKYPEWEB_CLIENTINFO_NAME);
         ("clientVer", SKYPEWEB_CLIENTINFO_VERSION) ]);
    ("Authentication",
     stringifyHeaderParams
       [ ("skypetoken", SkypeToken.value (Context.skypeToken apiContext)) ]) ].

(** The [messagesHost] of an attempt. *)
Definition messagesHost (options : option RegisterEndpointOptions.t) : Host.t :=
  match options with
  | None => Host.name SKYPEWEB_DEFAULT_MESSAGES_HOST
  | Some o =>
      match RegisterEndpointOptions.messagesHost o with
      | None => Host.name SKYPEWEB_DEFAULT_MESSAGES_HOST
      | Some h => h
      end
  end.

(** The [retry] of an attempt, as line 86 reads it. *)
Definition retry (options : option RegisterEndpointOptions.t) : Z :=
  match options with
  | None => 2
  | Some o =>
      match RegisterEndpointOptions.retry o with
      | None => 2
      | Some r => r
      end
  end.

Definition requestOptions (apiContext : Context.t)
    (options : option RegisterEndpointOptions.t) (startTime : Z) : PostOptions.t :=
  {| PostOptions.uri := messagesUri_endpoints (messagesHost options);
     PostOptions.headers := headers apiContext startTime;
     PostOptions.cookies := Context.cookies apiContext;
     PostOptions.body := "{}" |}.

(** [parseUri(locationHeader)]: Node's [url.parse] throws a [TypeError]
    when its argument is not a string, which a header that the response
    does not carry is not. *)
Definition parseUri (locationHeader : option string) : Async Url.t :=
  match locationHeader with
  | None => throw (TypeError "The url argument must be of type string")
  | Some u => ret (url_parse u)
  end.

(** A read [d[k]] where the code has already checked that the key is there
    and uses the value as a string. *)
Definition dict_at (d : Dictionary) (k : string) : string :=
  match dict_get d k with
  | Some v => v
  | None => EmptyString
  end.

(** [registerEndpoint(io, apiContext, options)].  [fuel] bounds the number
    of attempts the model follows; an attempt is one pass through the
    body, so one POST. *)
Fixpoint registerEndpoint (fuel : nat) (io : HttpIo.t) (apiContext : Context.t)
    (options : option RegisterEndpointOptions.t) {struct fuel}
  : Async RegistrationToken.t :=
  match fuel with
  | O => pending
  | S fuel' =>
      startTime <- currentTime ;;
      let messagesHost := messagesHost options in
      let requestOptions := requestOptions apiContext options startTime in
      res <- await_post io requestOptions ;;
      if negb (has expectedStatusCodes (Response.statusCode res)) then
        throw (UnexpectedHttpStatusError res expectedStatusCodes requestOptions)
      else
        let locationHeader := dict_get (Response.headers res) "location" in
        location <- parseUri locationHeader ;;
        match Url.host location with
        | None =>
            throw (Incident "UndefinedLocationHost" (Some res)
                     "Expected the `location` header to define host")
        | Some host =>
            if negb (Host.eqb host messagesHost) then
              let retry := retry options in
              if 0 <? retry then
                registerEndpoint fuel' io apiContext
                  (Some {| RegisterEndpointOptions.messagesHost := Some host;
                           RegisterEndpointOptions.retry := Some retry |})
              else
                throw (Incident "net" None "Exceeded max tries")
            else
              let registrationTokenHeader :=
                dict_get (Response.headers res) "set-registrationtoken" in
              match registrationTokenHeader with
              | None =>
                  (* parseHeaderParams(undefined): the spec has it split its
                     argument, and a method call on undefined throws *)
                  throw (TypeError "Cannot read properties of undefined")
              | Some raw =>
                  let parsedHeader := parseHeaderParams raw in
                  if falsy (dict_get parsedHeader "registrationToken")
                     || falsy (dict_get parsedHeader "expires")
                     || falsy (dict_get parsedHeader "endpointId")
                  then
                    throw (Incident "protocol" None
                             "Missing parameters for the registrationToken")
                  else
                    let expires := parseInt10 (dict_at parsedHeader "expires") in
                    ret {| RegistrationToken.value :=
                             dict_at parsedHeader "registrationToken";
                           RegistrationToken.expirationDate :=
                             newDate (times 1000 expires);
                           RegistrationToken.endpointId :=
                             dict_at parsedHeader "endpointId";
                           RegistrationToken.raw := raw;
                           RegistrationToken.host := messagesHost |}
              end
        end
  end.

(** A call from a fresh log. *)
Definition start (w : World) : State := {| world := w; log := [] |}.

(** The number of POSTs a run has made. *)
Definition posts (r : Promise RegistrationToken.t * State) : nat :=
  length (log (snd r)).

End RegisterEndpoint.

(** ** What the specification calls things *)

Section SpecWords.
Context `{Env : Environment}.

(** The first thing a call does: read the clock, build the request and
    POST it.  The request, how the POST ended, and the state after it. *)
Definition attempt (io : HttpIo.t) (apiContext : Context.t)
    (options : option RegisterEndpointOptions.t) (s : State)
  : PostOptions.t * PostResult * State :=
  let (t, w1) := getCurrentTime (world s) in
  let request := requestOptions apiContext options t in
  let (r, w2) := HttpIo.post io request w1 in
  (request, r, {| world := w2; log := (log s ++ [(request, r)])%list |}).

(** An accepted response whose location names the host that was asked. *)
Definition acceptedFrom (host : Host.t) (res : Response.t) : Prop :=
  (Response.statusCode res = 201 \/ Response.statusCode res = 301) /\
  exists location,
    dict_get (Response.headers res) "location" = Some location /\
    Url.host (url_parse location) = Some host.

(** The set-registrationtoken header of [res] holds the three fields, and
    they are the fields of [tok]. *)
Definition carries (res : Response.t) (tok : RegistrationToken.t) : Prop :=
  exists raw,
    dict_get (Response.headers res) "set-registrationtoken" = Some raw /\
    RegistrationToken.raw tok = raw /\
    dict_get (parseHeaderParams raw) "registrationToken"
      = Some (RegistrationToken.value tok) /\
    (exists expires,
        dict_get (parseHeaderParams raw) "expires" = Some expires /\
        RegistrationToken.expirationDate tok
          = newDate (times 1000 (parseInt10 expires))) /\
    dict_get (parseHeaderParams raw) "endpointId"
      = Some (RegistrationToken.endpointId tok).

End SpecWords.

(** Spec 4.3 step 9, "decimal seconds": the value of a string that is a decimal
    numeral, nothing before or after the digits. *)
Definition decimalValue (s : string) : option Z :=
  match Str.span_digits s with
  | (c :: ds, EmptyString) => Some (Str.digits_value (c :: ds))
  | _ => None
  end.

(** A string that, past leading white space and one sign, does not start
    with a decimal digit: there is no number for [parseInt] to read. *)
Definition nonNumeric (s : string) : bool :=
  match Str.trimStart s with
  | String "-" r | String "+" r =>
      match r with
      | String c _ => negb (Str.is_digit c)
      | EmptyString => true
      end
  | String c _ => negb (Str.is_digit c)
  | EmptyString => true
  end.

(** Side conditions of the round trip through the header codec. *)
Definition keyRoundTrips (k : string) : bool :=
  negb (Str.contains ";" k) && negb (Str.contains "=" k)
  && negb (Str.starts_with_whitespace k).

Definition valueRoundTrips (v : string) : bool :=
  negb (Str.contains ";" v) && negb (Str.ends_with_whitespace v).

Definition paramsRoundTrip (p : Dictionary) : bool :=
  forallb (fun kv => keyRoundTrips (fst kv) && valueRoundTrips (snd kv)) p.

(** No key and no value holds a delimiter of the codec. *)
Definition noDelimiters (p : Dictionary) : bool :=
  forallb (fun kv =>
             negb (Str.contains ";" (fst kv)) && negb (Str.contains "=" (fst kv))
             && negb (Str.contains ";" (snd kv)) && negb (Str.contains "=" (snd kv))) p.

(** ** Test doubles *)

Module Double.

Fixpoint untilSlash (s : string) : string :=
  match s with
  | EmptyString => EmptyString
  | String c s' => if Ascii.eqb c "/" then EmptyString else String c (untilSlash s')
  end.

(** What [url.parse] reports as the host of [https://host/path]; anything
    else has no host here, which [url.parse] reports as [null]. *)
Definition hostOf (u : string) : Url.t :=
  match u with
  | String "h" (String "t" (String "t" (String "p" (String "s"
      (String ":" (String "/" (String "/" r))))))) =>
      {| Url.host := Some (Host.name (untilSlash r)) |}
  | _ => {| Url.host := Some Host.null |}
  end.

(** A world that counts the POSTs it has served, with a clock that stands
    at 1700000000, a unit cookie store and a stub digest. *)
#[export] Instance env : Environment := {|
  World := nat;
  CookieStore := unit;
  getCurrentTime := fun w => (1700000000, w);
  hmacSha256 := fun _ _ _ => "5f4dcc3b";
  SKYPEWEB_LOCKANDKEY_APPID := "msmsgs@msnmsgr.com";
  SKYPEWEB_LOCKANDKEY_SECRET := "Q1P7W2E4J9R8U3S5";
  SKYPEWEB_DEFAULT_MESSAGES_HOST := "client-s.gateway.messenger.live.com";
  SKYPEWEB_CLIENTINFO_NAME := "skype.com";
  SKYPEWEB_CLIENTINFO_VERSION := "908/1.30.0.128";
  messagesUri_endpoints :=
    fun host => "https://" ++ Host.toString host ++ "/v1/users/ME/endpoints";
  url_parse := hostOf;
|}.

(** A transport that answers the n-th POST with the n-th entry of a
    script. *)
Definition scripted (script : list PostResult) : HttpIo.t :=
  {| HttpIo.post := fun _ w => (nth w script (Failed "ECONNRESET"), S w) |}.

Definition hostA : Host.t := Host.name "client-s.gateway.messenger.live.com".
Definition hostB : Host.t := Host.name "db5-client-s.gateway.messenger.live.com".

Definition redirectTo (host : Host.t) : Response.t :=
  {| Response.statusCode := 301;
     Response.headers := [("location", messagesUri_endpoints host)] |}.

(** A service that sends whoever asks [hostA] to [hostB] and everybody
    else to [hostA]. *)
Definition bouncing : HttpIo.t :=
  {| HttpIo.post := fun request w =>
       (Responded
          (if String.eqb (PostOptions.uri request) (messagesUri_endpoints hostA)
           then redirectTo hostB else redirectTo hostA),
        S w) |}.

Definition created (host : Host.t) (tokenHeader : string) : Response.t :=
  {| Response.statusCode := 201;
     Response.headers := [("location", messagesUri_endpoints host);
                          ("set-registrationtoken", tokenHeader)] |}.

Definition apiContext : Context.t :=
  {| Context.skypeToken := {| SkypeToken.value := "skypetoken123" |};
     Context.cookies := tt |}.

Definition options (host : Host.t) (retry : Z) : option RegisterEndpointOptions.t :=
  Some {| RegisterEndpointOptions.messagesHost := Some host;
          RegisterEndpointOptions.retry := Some retry |}.

Definition notFound : Response.t :=
  {| Response.statusCode := 404; Response.headers := [] |}.

(** A 201 that carries the token but no location. *)
Definition createdNowhere (tokenHeader : string) : Response.t :=
  {| Response.statusCode := 201;
     Response.headers := [("set-registrationtoken", tokenHeader)] |}.

Definition tokenHeader : string :=
  "registrationToken=abc; expires=1700000000; endpointId={x}".

(** The request of an attempt on [host] with budget [retry]. *)
Definition request (host : Host.t) (retry : Z) : PostOptions.t :=
  requestOptions apiContext (options host retry) 1700000000.

(** Nothing served, nothing logged. *)
Definition fresh : State := start (Env := env) 0%nat.

(** Spec 8, "redirect success": one redirect followed, then the token of
    the host that was named, after two POSTs. *)
Definition redirectThenCreated : HttpIo.t :=
  scripted [Responded (redirectTo hostB); Responded (created hostB tokenHeader)].

(** Spec 8, "field validation": the header without endpointId. *)
Definition withoutEndpointId : string := "registrationToken=abc; expires=1700000000".

Definition emptyToken : string :=
  "registrationToken=; expires=1700000000; endpointId={x}".

Definition expiresAbc : string := "registrationToken=abc; expires=abc; endpointId={x}".

Definition expiresLate : string :=
  "registrationToken=abc; expires=9000000000000; endpointId={x}".

(** An expires value that is no number but starts with one. *)
Definition expiresLeading : string :=
  "registrationToken=abc; expires=12abc; endpointId={x}".

(** The LockAndKey mapping of a request in this environment. *)
Definition lockAndKey : Dictionary :=
  [ ("appId", SKYPEWEB_LOCKANDKEY_APPID);
    ("time", Str.of_Z 1700000000);
    ("lockAndKeyResponse", getLockAndKeyResponse 1700000000) ].

(** A 301 whose location is a path: [url.parse] finds no host in it and
    reports [null]. *)
Definition relativeLocation : Response.t :=
  {| Response.statusCode := 301;
     Response.headers := [("location", "/v1/users/ME/endpoints")] |}.

(** A transport that fails every POST. *)
Definition unreachable : HttpIo.t := scripted [].

(** An expires value with a space before the numeral and letters after. *)
Definition expiresPrefixed : string :=
  "registrationToken=abc; expires= 1700000000s; endpointId={x}".

(** A 201 from [hostB] although [hostA] was asked, token included. *)
Definition createdElsewhere : Response.t := created hostB tokenHeader.

End Double.

(** ** Traces of a call *)

(** Every character of [s] passes [p]. *)
Fixpoint allChars (p : ascii -> bool) (s : string) : bool :=
  match s with
  | EmptyString => true
  | String c s' => p c && allChars p s'
  end.

(** A code unit that UTF-8 writes as itself. *)
Definition sevenBit (c : ascii) : bool := (N_of_ascii c <? 128)%N.

(** Neither the `;` of the codec nor white space. *)
Definition plainChar (c : ascii) : bool :=
  negb (Ascii.eqb c ";") && negb (Str.is_whitespace c).

Definition startsWithDigit (s : string) : bool :=
  match s with
  | EmptyString => false
  | String c _ => Str.is_digit c
  end.

Section Traces.
Context `{Env : Environment}.

(** The request that one pass through lines 38 to 70 builds for [host] when
    the clock reads [time]. *)
Definition requestTo (apiContext : Context.t) (host : Host.t) (time : Z)
  : PostOptions.t :=
  {| PostOptions.uri := messagesUri_endpoints host;
     PostOptions.headers := headers apiContext time;
     PostOptions.cookies := Context.cookies apiContext;
     PostOptions.body := "{}" |}.

(** The three mappings that lines 41 to 58 stringify. *)
Definition lockAndKeyParams (time : Z) : Dictionary :=
  [ ("appId", SKYPEWEB_LOCKANDKEY_APPID);
    ("time", Str.of_Z time);
    ("lockAndKeyResponse", getLockAndKeyResponse time) ].

Definition clientInfoParams : Dictionary :=
  [ ("os", "Windows");
    ("osVer", "10");
    ("proc", "Win64");
    ("lcid", "en-us");
    ("deviceType", "1");
    ("country", "n/a");
    ("clientName", SKYPEWEB_CLIENTINFO_NAME);
    ("clientVer", SKYPEWEB_CLIENTINFO_VERSION) ].

Definition authenticationParams (apiContext : Context.t) : Dictionary :=
  [ ("skypetoken", SkypeToken.value (Context.skypeToken apiContext)) ].

(** [host] was asked and answered [r]: an accepted response whose location
    names another host, [next]. *)
Definition redirects (host : Host.t) (r : PostResult) (next : Host.t) : Prop :=
  exists res location,
    r = Responded res /\
    (Response.statusCode res = 201 \/ Response.statusCode res = 301) /\
    dict_get (Response.headers res) "location" = Some location /\
    Url.host (url_parse location) = Some next /\
    next <> host.

(** The POSTs of a call that starts at [host]: each goes to the host that
    the answer before it named, and only the last may be answered by
    anything but a redirect. *)
Fixpoint follows (apiContext : Context.t) (host : Host.t)
    (entries : list (PostOptions.t * PostResult)) {struct entries} : Prop :=
  match entries with
  | [] => True
  | (request, r) :: rest =>
      (exists time, request = requestTo apiContext host time) /\
      match rest with
      | [] => True
      | _ :: _ => exists next, redirects host r next /\ follows apiContext next rest
      end
  end.


(** A promise that has settled. *)
Definition settled {A : Type} (p : Promise A) : Prop := p <> Pending.

End Traces.

(** * Properties *)

Ltac distinct_keys :=
  cbn; repeat (constructor; [cbn; intuition discriminate|]); constructor.

Ltac accepted :=
  split; [(left; reflexivity) || (right; reflexivity)
         | eexists; split; reflexivity].

(** ** The helpers on examples *)

Example parse_token_header :
  parseHeaderParams "registrationToken=abc; expires=1700000000; endpointId={x=y}"
  = [("registrationToken", "abc"); ("expires", "1700000000"); ("endpointId", "{x=y}")].
Proof. reflexivity. Qed.

Example stringify_three :
  stringifyHeaderParams [("appId", "a"); ("time", Str.of_Z 1700000000); ("k", "")]
  = "appId=a; time=1700000000; k=".
Proof. reflexivity. Qed.

(** NO-BREAK SPACE before a number is skipped like any white space. *)
Example parseInt_no_break_space :
  parseInt10 (String (ascii_of_nat 160) "12") = Int 12 /\
  nonNumeric (String (ascii_of_nat 160) "12") = false /\
  Str.trim (String (ascii_of_nat 160) "12 ") = "12".
Proof. repeat split; reflexivity. Qed.

Example parseInt_examples :
  parseInt10 "1700000000" = Int 1700000000 /\ parseInt10 "abc" = NaN /\
  parseInt10 " -12px" = Int (-12) /\ parseInt10 "" = NaN /\ parseInt10 "0" = Int 0.
Proof. repeat split; reflexivity. Qed.

(** ** Strings *)

Lemma append_assoc (a b c : string) : (a ++ b) ++ c = a ++ (b ++ c).
Proof. induction a as [|x a IH]; simpl; [reflexivity | now rewrite IH]. Qed.

Lemma whitespace_not_semicolon (c : ascii) :
  Str.is_whitespace c = true -> Ascii.eqb c ";" = false.
Proof.
  intros H. destruct (Ascii.eqb c ";") eqn:E; [|reflexivity].
  apply Ascii.eqb_eq in E. subst c. discriminate H.
Qed.

Lemma all_whitespace_no_semicolon (ws : string) :
  Str.all_whitespace ws = true -> Str.contains ";" ws = false.
Proof.
  induction ws as [|c ws IH]; simpl; [reflexivity|].
  intros H. apply andb_true_iff in H as [Hc Hws].
  now rewrite (whitespace_not_semicolon c Hc), IH.
Qed.

Lemma contains_append (c : ascii) (a b : string) :
  Str.contains c (a ++ b) = Str.contains c a || Str.contains c b.
Proof.
  induction a as [|x a IH]; simpl; [reflexivity|].
  now rewrite IH, orb_assoc.
Qed.

Lemma split_without (sep : ascii) (a : string) :
  Str.contains sep a = false -> Str.split sep a = [a].
Proof.
  induction a as [|x a IH]; simpl; [reflexivity|].
  intros H. apply orb_false_iff in H as [Hx Ha].
  now rewrite Hx, (IH Ha).
Qed.

Lemma split_at_first (sep : ascii) (a b : string) :
  Str.contains sep a = false ->
  Str.split sep (a ++ String sep b) = a :: Str.split sep b.
Proof.
  induction a as [|x a IH]; simpl.
  - intros _. now rewrite Ascii.eqb_refl.
  - intros H. apply orb_false_iff in H as [Hx Ha].
    now rewrite Hx, (IH Ha).
Qed.

Lemma trimStart_whitespace (ws s : string) :
  Str.all_whitespace ws = true ->
  Str.starts_with_whitespace s = false ->
  Str.trimStart (ws ++ s) = s.
Proof.
  induction ws as [|c ws IH]; simpl.
  - intros _. destruct s as [|x s]; simpl; [reflexivity|].
    now intros ->.
  - intros H Hs. apply andb_true_iff in H as [-> Hws]. now apply IH.
Qed.

Lemma trimEnd_fixed (s : string) :
  Str.ends_with_whitespace s = false -> Str.trimEnd s = s.
Proof.
  induction s as [|c s IH]; [reflexivity|].
  intros H. cbn [Str.trimEnd].
  destruct s as [|x s].
  - simpl in *. now rewrite H.
  - rewrite IH by exact H. reflexivity.
Qed.

Lemma cut_at_first (c : ascii) (k v : string) :
  Str.contains c k = false -> Str.cut c (k ++ String c v) = Some (k, v).
Proof.
  induction k as [|x k IH]; simpl.
  - intros _. now rewrite Ascii.eqb_refl.
  - intros H. apply orb_false_iff in H as [Hx Hk].
    now rewrite Hx, (IH Hk).
Qed.

Lemma ends_with_whitespace_append (a : string) (x : ascii) (b : string) :
  Str.ends_with_whitespace (a ++ String x b) = Str.ends_with_whitespace (String x b).
Proof.
  induction a as [|y a IH]; [reflexivity|].
  change ((String y a ++ String x b)) with (String y (a ++ String x b)).
  destruct a as [|z a]; cbn [append Str.ends_with_whitespace] in *; exact IH.
Qed.

(** ** HeaderCodec *)

Lemma stringifyPair_no_semicolon (k v : string) :
  keyRoundTrips k = true -> valueRoundTrips v = true ->
  Str.contains ";" (stringifyPair (k, v)) = false.
Proof.
  unfold keyRoundTrips, valueRoundTrips, stringifyPair. simpl fst; simpl snd.
  intros Hk Hv.
  repeat (apply andb_true_iff in Hk as [Hk ?]).
  apply andb_true_iff in Hv as [Hv ?].
  rewrite contains_append. simpl.
  apply negb_true_iff in Hk, Hv. now rewrite Hk, Hv.
Qed.

Lemma parseSegment_pair (ws k v : string) :
  Str.all_whitespace ws = true ->
  keyRoundTrips k = true -> valueRoundTrips v = true ->
  parseSegment (ws ++ stringifyPair (k, v)) = Some (k, v).
Proof.
  unfold keyRoundTrips, valueRoundTrips, stringifyPair, parseSegment, Str.trim.
  simpl fst; simpl snd. intros Hws Hk Hv.
  apply andb_true_iff in Hk as [Hk Hk3]. apply andb_true_iff in Hk as [Hk1 Hk2].
  apply andb_true_iff in Hv as [Hv1 Hv2].
  apply negb_true_iff in Hk1, Hk2, Hk3, Hv1, Hv2.
  rewrite trimStart_whitespace; [| exact Hws |].
  - rewrite trimEnd_fixed.
    + now apply cut_at_first.
    + change (k ++ "=" ++ v) with (k ++ String "=" v).
      rewrite ends_with_whitespace_append.
      destruct v; [reflexivity | exact Hv2].
  - destruct k; [reflexivity | exact Hk3].
Qed.

Lemma parseSegment_blank (ws : string) :
  Str.all_whitespace ws = true -> parseSegment ws = None.
Proof.
  unfold parseSegment, Str.trim. intros H.
  replace (Str.trimStart ws) with EmptyString; [reflexivity|].
  induction ws as [|c ws IH]; simpl in *; [reflexivity|].
  apply andb_true_iff in H as [-> Hws]. now apply IH.
Qed.

Lemma parse_stringify_fold (p : Dictionary) :
  paramsRoundTrip p = true ->
  forall (ws : string) (d : Dictionary),
    Str.all_whitespace ws = true ->
    fold_left collectSegment (Str.split ";" (ws ++ stringifyHeaderParams p)) d
    = fold_left (fun r kv => dict_set r (fst kv) (snd kv)) p d.
Proof.
  unfold stringifyHeaderParams.
  induction p as [|[k v] p IH]; intros Hp ws d Hws.
  - simpl. replace (ws ++ "") with ws by (clear; induction ws; simpl; congruence).
    rewrite split_without by now apply all_whitespace_no_semicolon.
    simpl. unfold collectSegment. now rewrite parseSegment_blank.
  - simpl in Hp. apply andb_true_iff in Hp as [Hkv Hp].
    apply andb_true_iff in Hkv as [Hk Hv]. simpl in Hk, Hv.
    destruct p as [|kv' p].
    + simpl. rewrite split_without.
      * simpl. unfold collectSegment. now rewrite parseSegment_pair.
      * rewrite contains_append, all_whitespace_no_semicolon by exact Hws.
        now rewrite stringifyPair_no_semicolon.
    + change (String.concat "; " (map stringifyPair ((k, v) :: kv' :: p)))
        with (stringifyPair (k, v)
              ++ String ";" (" " ++ String.concat "; " (map stringifyPair (kv' :: p)))).
      rewrite <- append_assoc, split_at_first.
      * cbn [fold_left]. unfold collectSegment at 2.
        rewrite parseSegment_pair by assumption.
        now rewrite (IH Hp " " _ eq_refl).
      * rewrite contains_append, all_whitespace_no_semicolon by exact Hws.
        now rewrite stringifyPair_no_semicolon.
Qed.

Lemma dict_set_fresh (d : Dictionary) (k v : string) :
  ~ In k (dict_keys d) -> dict_set d k v = (d ++ [(k, v)])%list.
Proof.
  induction d as [|[k' v'] d IH]; simpl; [reflexivity|].
  intros H. destruct (String.eqb k' k) eqn:E.
  - apply String.eqb_eq in E. tauto.
  - rewrite IH by tauto. reflexivity.
Qed.

Lemma fold_dict_set_fresh (p d : Dictionary) :
  NoDup (dict_keys (d ++ p)%list) ->
  fold_left (fun r kv => dict_set r (fst kv) (snd kv)) p d = (d ++ p)%list.
Proof.
  revert d. induction p as [|[k v] p IH]; intros d H; simpl.
  - now rewrite app_nil_r.
  - assert (Hsplit : (d ++ (k, v) :: p = (d ++ [(k, v)]) ++ p)%list)
      by now rewrite <- app_assoc.
    rewrite dict_set_fresh.
    + rewrite IH; [now rewrite <- app_assoc | now rewrite <- Hsplit].
    + unfold dict_keys in *. rewrite map_app in H. simpl in H.
      apply NoDup_remove_2 in H. intros Hin. apply H.
      apply in_or_app. now left.
Qed.

(** ** Numbers *)

Lemma digit_value_nonneg (c : ascii) : Str.is_digit c = true -> 0 <= Str.digit_value c.
Proof.
  unfold Str.is_digit, Str.digit_value. intros H.
  apply andb_true_iff in H as [H _]. apply N.leb_le in H. lia.
Qed.

Lemma span_digits_digits (s : string) :
  forallb Str.is_digit (fst (Str.span_digits s)) = true.
Proof.
  induction s as [|c s IH]; simpl; [reflexivity|].
  destruct (Str.is_digit c) eqn:Hc; [|reflexivity].
  destruct (Str.span_digits s) as [ds r]. simpl in *. now rewrite Hc.
Qed.

Lemma fold_digits_nonneg (ds : list ascii) :
  forallb Str.is_digit ds = true ->
  forall acc, 0 <= acc ->
    0 <= fold_left (fun a c => 10 * a + Str.digit_value c) ds acc.
Proof.
  induction ds as [|c ds IH]; cbn [fold_left forallb]; intros H acc Hacc; [exact Hacc|].
  apply andb_true_iff in H as [Hc Hds].
  apply IH; [exact Hds|]. pose proof (digit_value_nonneg c Hc). lia.
Qed.

Lemma digits_value_nonneg (ds : list ascii) :
  forallb Str.is_digit ds = true -> 0 <= Str.digits_value ds.
Proof. intros H. now apply fold_digits_nonneg. Qed.

(** On a decimal numeral [parseInt] reads the value of the numeral. *)
Lemma parseInt10_decimal (s : string) (n : Z) :
  decimalValue s = Some n -> parseInt10 s = Int n /\ 0 <= n.
Proof.
  unfold decimalValue. destruct s as [|c s]; [discriminate|].
  pose proof (span_digits_digits (String c s)) as Hall.
  unfold parseInt10. cbn [Str.span_digits Str.trimStart] in *.
  destruct (Str.is_digit c) eqn:Hd; [|discriminate].
  destruct (Str.span_digits s) as [ds r] eqn:Hs.
  destruct r; [|discriminate]. intros H. inversion H; subst; clear H.
  split; [|now apply digits_value_nonneg].
  destruct c as [[] [] [] [] [] [] [] []]; try (vm_compute in Hd; discriminate Hd);
    cbn [Str.is_whitespace N_of_ascii]; cbv beta iota zeta delta [Str.is_whitespace];
    simpl; rewrite Hs; simpl; f_equal;
    now destruct (Str.digits_value _).
Qed.

(** Where there is no numeral to read, [parseInt] gives [NaN]. *)
Lemma parseInt10_nonNumeric (s : string) :
  nonNumeric s = true -> parseInt10 s = NaN.
Proof.
  unfold nonNumeric, parseInt10.
  destruct (Str.trimStart s) as [|c r]; [reflexivity|].
  assert (G : forall x t, negb (Str.is_digit x) = true ->
                          fst (Str.span_digits (String x t)) = []).
  { intros x t Hx. apply negb_true_iff in Hx. simpl. now rewrite Hx. }
  destruct c as [[] [] [] [] [] [] [] []];
    try (intros H; rewrite (G _ _ H); reflexivity);
    (destruct r as [|x t]; [reflexivity | intros H; now rewrite (G _ _ H)]).
Qed.

(** ** The handshake *)

Module HostFacts.
Lemma eqb_refl (h : Host.t) : Host.eqb h h = true.
Proof. destruct h; [reflexivity | apply String.eqb_refl]. Qed.

Lemma eqb_eq (a b : Host.t) : Host.eqb a b = true -> a = b.
Proof.
  destruct a, b; cbn; try discriminate; [reflexivity|].
  intros H. apply String.eqb_eq in H. now subst.
Qed.

Lemma eqb_neq (a b : Host.t) : Host.eqb a b = false <-> a <> b.
Proof.
  split.
  - intros H ->. now rewrite eqb_refl in H.
  - intros H. destruct (Host.eqb a b) eqn:E; [|reflexivity].
    apply eqb_eq in E. contradiction.
Qed.
End HostFacts.

Section Handshake.
Context `{Env : Environment}.

Lemma has_expected (code : Z) :
  has expectedStatusCodes code = true <-> code = 201 \/ code = 301.
Proof.
  unfold has, expectedStatusCodes. simpl. rewrite !orb_true_iff, !Z.eqb_eq.
  intuition discriminate.
Qed.

Lemma has_unexpected (code : Z) :
  code <> 201 -> code <> 301 -> has expectedStatusCodes code = false.
Proof.
  intros H1 H2. destruct (has expectedStatusCodes code) eqn:E; [|reflexivity].
  apply has_expected in E. tauto.
Qed.

Lemma attempt_inv io apiContext options s request r s1 :
  attempt io apiContext options s = (request, r, s1) ->
  exists t w1 w2,
    getCurrentTime (world s) = (t, w1) /\
    request = requestOptions apiContext options t /\
    HttpIo.post io request w1 = (r, w2) /\
    s1 = {| world := w2; log := (log s ++ [(request, r)])%list |}.
Proof.
  unfold attempt. destruct (getCurrentTime (world s)) as [t w1].
  destruct (HttpIo.post io (requestOptions apiContext options t) w1) as [r' w2] eqn:Hpost.
  intros H. inversion H; subst. now exists t, w1, w2.
Qed.

Lemma attempt_log io apiContext options s request r s1 :
  attempt io apiContext options s = (request, r, s1) ->
  log s1 = (log s ++ [(request, r)])%list.
Proof.
  intros H. apply attempt_inv in H as (t & w1 & w2 & _ & _ & _ & ->). reflexivity.
Qed.

(** One pass through the body, up to the test of the status code. *)
Lemma registerEndpoint_attempt fuel io apiContext options s :
  registerEndpoint (S fuel) io apiContext options s
  = match attempt io apiContext options s with
    | (request, Failed cause, s1) => (Rejected (IoError cause), s1)
    | (request, Responded res, s1) =>
        (if negb (has expectedStatusCodes (Response.statusCode res)) then
           throw (UnexpectedHttpStatusError res expectedStatusCodes request)
         else
           location <- parseUri (dict_get (Response.headers res) "location") ;;
           match Url.host location with
           | None =>
               throw (Incident "UndefinedLocationHost" (Some res)
                        "Expected the `location` header to define host")
           | Some host =>
               if negb (Host.eqb host (messagesHost options)) then
                 if 0 <? retry options then
                   registerEndpoint fuel io apiContext
                     (Some {| RegisterEndpointOptions.messagesHost := Some host;
                              RegisterEndpointOptions.retry := Some (retry options) |})
                 else throw (Incident "net" None "Exceeded max tries")
               else
                 match dict_get (Response.headers res) "set-registrationtoken" with
                 | None => throw (TypeError "Cannot read properties of undefined")
                 | Some raw =>
                     let parsedHeader := parseHeaderParams raw in
                     if falsy (dict_get parsedHeader "registrationToken")
                        || falsy (dict_get parsedHeader "expires")
                        || falsy (dict_get parsedHeader "endpointId")
                     then throw (Incident "protocol" None
                                   "Missing parameters for the registrationToken")
                     else
                       ret {| RegistrationToken.value :=
                                dict_at parsedHeader "registrationToken";
                              RegistrationToken.expirationDate :=
                                newDate (times 1000
                                           (parseInt10 (dict_at parsedHeader "expires")));
                              RegistrationToken.endpointId :=
                                dict_at parsedHeader "endpointId";
                              RegistrationToken.raw := raw;
                              RegistrationToken.host := messagesHost options |}
                 end
           end) s1
    end.
Proof.
  cbn [registerEndpoint]. unfold attempt, bind at 1, currentTime.
  destruct (getCurrentTime (world s)) as [t w1]. cbn [world log].
  unfold bind at 1, await_post. cbn [world log].
  destruct (HttpIo.post io (requestOptions apiContext options t) w1) as [[res|cause] w2];
    reflexivity.
Qed.


Lemma falsy_dict_at (d : Dictionary) (k : string) :
  falsy (dict_get d k) = false -> dict_get d k = Some (dict_at d k).
Proof. unfold dict_at. destruct (dict_get d k); [reflexivity | discriminate]. Qed.

(** The pass through the body when the response is accepted and names the
    host that was asked. *)
Lemma registerEndpoint_accepted fuel io apiContext options s request res s1 :
  attempt io apiContext options s = (request, Responded res, s1) ->
  acceptedFrom (messagesHost options) res ->
  registerEndpoint (S fuel) io apiContext options s
  = match dict_get (Response.headers res) "set-registrationtoken" with
    | None => (Rejected (TypeError "Cannot read properties of undefined"), s1)
    | Some raw =>
        let parsedHeader := parseHeaderParams raw in
        if falsy (dict_get parsedHeader "registrationToken")
           || falsy (dict_get parsedHeader "expires")
           || falsy (dict_get parsedHeader "endpointId")
        then (Rejected (Incident "protocol" None
                          "Missing parameters for the registrationToken"), s1)
        else
          (Resolved {| RegistrationToken.value :=
                         dict_at parsedHeader "registrationToken";
                       RegistrationToken.expirationDate :=
                         newDate (times 1000
                                    (parseInt10 (dict_at parsedHeader "expires")));
                       RegistrationToken.endpointId :=
                         dict_at parsedHeader "endpointId";
                       RegistrationToken.raw := raw;
                       RegistrationToken.host := messagesHost options |}, s1)
    end.
Proof.
  intros Hat [Hcode (location & Hloc & Hhost)].
  rewrite registerEndpoint_attempt, Hat.
  apply has_expected in Hcode. rewrite Hcode. cbn [negb].
  rewrite Hloc. unfold parseUri, bind at 1, ret at 1. rewrite Hhost.
  rewrite HostFacts.eqb_refl. cbn [negb].
  destruct (dict_get (Response.headers res) "set-registrationtoken") as [raw|];
    [|reflexivity].
  cbv zeta.
  destruct (falsy (dict_get (parseHeaderParams raw) "registrationToken")
            || falsy (dict_get (parseHeaderParams raw) "expires")
            || falsy (dict_get (parseHeaderParams raw) "endpointId"));
    reflexivity.
Qed.

(** Whatever resolves was built from the last response, and that response
    was accepted, named the host that was asked and carried the fields. *)
Lemma registerEndpoint_resolved fuel :
  forall io apiContext options s tok s',
    registerEndpoint fuel io apiContext options s = (Resolved tok, s') ->
    exists options' s0 request res,
      attempt io apiContext options' s0 = (request, Responded res, s') /\
      RegistrationToken.host tok = messagesHost options' /\
      acceptedFrom (messagesHost options') res /\
      carries res tok.
Proof.
  induction fuel as [|fuel IH]; intros io apiContext options s tok s' H.
  - discriminate H.
  - rewrite registerEndpoint_attempt in H.
    destruct (attempt io apiContext options s) as [[request [res|cause]] s1] eqn:Hat;
      [|discriminate H].
    destruct (has expectedStatusCodes (Response.statusCode res)) eqn:Hcode;
      cbn [negb] in H; [|discriminate H].
    destruct (dict_get (Response.headers res) "location") as [location|] eqn:Hloc;
      [|discriminate H].
    unfold parseUri, bind at 1, ret at 1 in H.
    destruct (Url.host (url_parse location)) as [host|] eqn:Hhost; [|discriminate H].
    destruct (Host.eqb host (messagesHost options)) eqn:Heq; cbn [negb] in H.
    + apply HostFacts.eqb_eq in Heq. subst host.
      destruct (dict_get (Response.headers res) "set-registrationtoken") as [raw|] eqn:Hraw;
        [|discriminate H].
      cbv zeta in H.
      destruct (falsy (dict_get (parseHeaderParams raw) "registrationToken")) eqn:F1;
        [discriminate H|].
      destruct (falsy (dict_get (parseHeaderParams raw) "expires")) eqn:F2;
        [discriminate H|].
      destruct (falsy (dict_get (parseHeaderParams raw) "endpointId")) eqn:F3;
        [discriminate H|].
      cbn [orb] in H. unfold ret in H. inversion H; subst; clear H.
      exists options, s, request, res. split; [exact Hat|].
      split; [reflexivity|]. split.
      * split; [now apply has_expected|]. now exists location.
      * exists raw. cbn.
        split; [exact Hraw|]. split; [reflexivity|].
        split; [now apply falsy_dict_at|].
        split; [|now apply falsy_dict_at].
        exists (dict_at (parseHeaderParams raw) "expires").
        split; [now apply falsy_dict_at | reflexivity].
    + destruct (0 <? retry options); [|discriminate H].
      now apply IH in H.
Qed.

(** C3.  A response whose status code is neither 201 nor 301 ends the call
    at once: it rejects with the unexpected-status error, which carries the
    response, the set of accepted codes and the request, and the POST that
    fetched the response is the only one the call has made; this holds
    whatever the retry budget is. *)
Theorem unexpected_status_is_terminal fuel io apiContext options s request res s1 :
  attempt io apiContext options s = (request, Responded res, s1) ->
  Response.statusCode res <> 201 ->
  Response.statusCode res <> 301 ->
  registerEndpoint (S fuel) io apiContext options s
    = (Rejected (UnexpectedHttpStatusError res [201; 301] request), s1)
  /\ log s1 = (log s ++ [(request, Responded res)])%list.
Proof.
  intros Hat H201 H301. split; [|now apply attempt_log in Hat].
  rewrite registerEndpoint_attempt, Hat.
  now rewrite (has_unexpected _ H201 H301).
Qed.

(** C2.  A token that the call returns was built from the response to the
    last POST; that POST went to the host the token names, the response
    had status 201 or 301, its location named that same host, and its
    set-registrationtoken header parsed to a mapping with the keys
    registrationToken, expires and endpointId, whose values are the
    token's. *)
Theorem token_only_from_valid_response fuel io apiContext options s tok s' :
  registerEndpoint fuel io apiContext options s = (Resolved tok, s') ->
  exists earlier request res,
    log s' = (earlier ++ [(request, Responded res)])%list /\
    PostOptions.uri request = messagesUri_endpoints (RegistrationToken.host tok) /\
    acceptedFrom (RegistrationToken.host tok) res /\
    carries res tok.
Proof.
  intros H. apply registerEndpoint_resolved in H
    as (options' & s0 & request & res & Hat & Hhost & Hacc & Hcar).
  exists (log s0), request, res. rewrite Hhost.
  split; [now apply attempt_log in Hat|].
  split; [|now split].
  apply attempt_inv in Hat as (t & _ & _ & _ & -> & _). reflexivity.
Qed.

(** C4.  An accepted response that names the host that was asked, and
    whose set-registrationtoken header parses to a mapping without one of
    the keys registrationToken, expires or endpointId, ends the call: it
    rejects with the missing-parameters error, so no token is returned. *)
Theorem missing_token_field_rejects fuel io apiContext options s request res s1 raw :
  attempt io apiContext options s = (request, Responded res, s1) ->
  acceptedFrom (messagesHost options) res ->
  dict_get (Response.headers res) "set-registrationtoken" = Some raw ->
  dict_get (parseHeaderParams raw) "registrationToken" = None
  \/ dict_get (parseHeaderParams raw) "expires" = None
  \/ dict_get (parseHeaderParams raw) "endpointId" = None ->
  registerEndpoint (S fuel) io apiContext options s
  = (Rejected (Incident "protocol" None
                 "Missing parameters for the registrationToken"), s1).
Proof.
  intros Hat Hacc Hraw Hmiss.
  rewrite (registerEndpoint_accepted _ _ _ _ _ _ _ _ Hat Hacc), Hraw. cbv zeta.
  destruct Hmiss as [-> | [-> | ->]]; cbn [falsy orb];
    now rewrite ?orb_true_r.
Qed.

(** C9.  The test of the three fields takes an empty value for a missing
    key: an accepted response that names the host that was asked, and in
    whose set-registrationtoken header one of registrationToken, expires
    or endpointId is there with the empty string as its value, rejects
    with the missing-parameters error. *)
Theorem empty_token_field_rejects fuel io apiContext options s request res s1 raw :
  attempt io apiContext options s = (request, Responded res, s1) ->
  acceptedFrom (messagesHost options) res ->
  dict_get (Response.headers res) "set-registrationtoken" = Some raw ->
  dict_get (parseHeaderParams raw) "registrationToken" = Some EmptyString
  \/ dict_get (parseHeaderParams raw) "expires" = Some EmptyString
  \/ dict_get (parseHeaderParams raw) "endpointId" = Some EmptyString ->
  registerEndpoint (S fuel) io apiContext options s
  = (Rejected (Incident "protocol" None
                 "Missing parameters for the registrationToken"), s1).
Proof.
  intros Hat Hacc Hraw Hempty.
  rewrite (registerEndpoint_accepted _ _ _ _ _ _ _ _ Hat Hacc), Hraw. cbv zeta.
  destruct Hempty as [-> | [-> | ->]]; cbn [falsy orb];
    now rewrite ?orb_true_r.
Qed.


(** C5 (amended).  When the call returns a token and the expires field of
    the header it was built from is a decimal numeral, of value [seconds]
    with [1000 * seconds] no later than the last instant a date can hold,
    the token expires at [1000 * seconds] milliseconds since the epoch. *)
Theorem expiration_is_seconds_times_1000
    fuel io apiContext options s tok s' expires seconds :
  registerEndpoint fuel io apiContext options s = (Resolved tok, s') ->
  dict_get (parseHeaderParams (RegistrationToken.raw tok)) "expires" = Some expires ->
  decimalValue expires = Some seconds ->
  1000 * seconds <= maxTime ->
  RegistrationToken.expirationDate tok = ValidDate (1000 * seconds).
Proof.
  intros H Hexp Hdec Hmax.
  apply registerEndpoint_resolved in H
    as (_ & _ & _ & res & _ & _ & _ & raw & _ & Hraw & _ & (e & He & Hdate) & _).
  rewrite Hraw, He in Hexp. inversion Hexp; subst e.
  apply parseInt10_decimal in Hdec as [Hint Hpos].
  rewrite Hdate, Hint. cbn [times newDate].
  destruct (Z.leb_spec (Z.abs (1000 * seconds)) maxTime); [reflexivity | lia].
Qed.

(** C10 (amended).  Nothing checks that expires is a number: an accepted
    response that names the host that was asked, whose
    set-registrationtoken header has the three fields non-empty but an
    expires value with no numeral for [parseInt] to read (past leading
    white space and one sign it does not start with a decimal digit),
    makes the call resolve, with a token built from that header whose
    expiration date is the invalid date. *)
Theorem non_numeric_expires_resolves
    fuel io apiContext options s request res s1 raw expires :
  attempt io apiContext options s = (request, Responded res, s1) ->
  acceptedFrom (messagesHost options) res ->
  dict_get (Response.headers res) "set-registrationtoken" = Some raw ->
  falsy (dict_get (parseHeaderParams raw) "registrationToken") = false ->
  falsy (dict_get (parseHeaderParams raw) "endpointId") = false ->
  dict_get (parseHeaderParams raw) "expires" = Some expires ->
  expires <> EmptyString ->
  nonNumeric expires = true ->
  exists tok,
    registerEndpoint (S fuel) io apiContext options s = (Resolved tok, s1) /\
    RegistrationToken.expirationDate tok = InvalidDate /\
    RegistrationToken.raw tok = raw /\
    RegistrationToken.host tok = messagesHost options.
Proof.
  intros Hat Hacc Hraw F1 F3 Hexp Hne Hnon.
  rewrite (registerEndpoint_accepted _ _ _ _ _ _ _ _ Hat Hacc), Hraw. cbv zeta.
  rewrite F1, F3. unfold dict_at. rewrite Hexp.
  destruct expires as [|c e]; [now elim Hne|]. cbn [falsy orb].
  eexists. split; [reflexivity|]. cbn.
  now rewrite (parseInt10_nonNumeric _ Hnon).
Qed.

(** The missing-host error comes only from a response that has a location
    header, one whose host [url.parse] leaves undefined. *)
Lemma undefined_location_host_inv fuel :
  forall io apiContext options s data message s',
    registerEndpoint fuel io apiContext options s
      = (Rejected (Incident "UndefinedLocationHost" data message), s') ->
    exists request res location,
      data = Some res /\
      In (request, Responded res) (log s') /\
      dict_get (Response.headers res) "location" = Some location /\
      Url.host (url_parse location) = None.
Proof.
  induction fuel as [|fuel IH]; intros io apiContext options s data message s' H.
  - discriminate H.
  - rewrite registerEndpoint_attempt in H.
    destruct (attempt io apiContext options s) as [[request [res|cause]] s1] eqn:Hat;
      [|discriminate H].
    destruct (has expectedStatusCodes (Response.statusCode res));
      cbn [negb] in H; [|discriminate H].
    destruct (dict_get (Response.headers res) "location") as [location|] eqn:Hloc;
      [|discriminate H].
    unfold parseUri, bind at 1, ret at 1 in H.
    destruct (Url.host (url_parse location)) as [host|] eqn:Hhost.
    + destruct (Host.eqb host (messagesHost options)); cbn [negb] in H.
      * destruct (dict_get (Response.headers res) "set-registrationtoken") as [raw|];
          [|discriminate H].
        cbv zeta in H.
        destruct (falsy _ || falsy _ || falsy _) in H; discriminate H.
      * destruct (0 <? retry options); [|discriminate H].
        now apply IH in H.
    + unfold throw in H. inversion H; subst; clear H.
      exists request, res, location. repeat split; try assumption.
      apply attempt_log in Hat. rewrite Hat. apply in_or_app. right. now left.
Qed.

(** C8.  An accepted response (201 or 301) without a location header makes
    the call reject with a [TypeError], raised where the header is handed
    to [url.parse], which is none of the errors the handshake constructs;
    the missing-host error arises only when the location header is there
    and [url.parse] leaves its host undefined. *)
Theorem missing_location_is_type_error
    fuel io apiContext options s request res s1 :
  attempt io apiContext options s = (request, Responded res, s1) ->
  Response.statusCode res = 201 \/ Response.statusCode res = 301 ->
  dict_get (Response.headers res) "location" = None ->
  (exists message,
      registerEndpoint (S fuel) io apiContext options s
        = (Rejected (TypeError message), s1))
  /\
  (forall fuel' io' apiContext' options' s0 data message s',
      registerEndpoint fuel' io' apiContext' options' s0
        = (Rejected (Incident "UndefinedLocationHost" data message), s') ->
      exists request' res' location,
        data = Some res' /\
        In (request', Responded res') (log s') /\
        dict_get (Response.headers res') "location" = Some location /\
        Url.host (url_parse location) = None).
Proof.
  intros Hat Hcode Hloc. split.
  - rewrite registerEndpoint_attempt, Hat.
    apply has_expected in Hcode. rewrite Hcode, Hloc. cbn [negb].
    eexists. reflexivity.
  - intros fuel'. apply undefined_location_host_inv.
Qed.

(** A run only adds to the log. *)
Lemma registerEndpoint_log_grows fuel :
  forall io apiContext options s,
  exists more,
    log (snd (registerEndpoint fuel io apiContext options s)) = (log s ++ more)%list.
Proof.
  induction fuel as [|fuel IH]; intros io apiContext options s.
  - exists []. cbn. now rewrite app_nil_r.
  - rewrite registerEndpoint_attempt.
    destruct (attempt io apiContext options s) as [[request r] s1] eqn:Hat.
    apply attempt_log in Hat.
    assert (Hhere : exists more, log s1 = (log s ++ more)%list) by now exists [(request, r)].
    destruct r as [res|cause]; [|exact Hhere].
    destruct (has expectedStatusCodes (Response.statusCode res));
      cbn [negb]; [|exact Hhere].
    destruct (dict_get (Response.headers res) "location") as [location|];
      [|exact Hhere].
    unfold parseUri, bind at 1, ret at 1.
    destruct (Url.host (url_parse location)) as [host|]; [|exact Hhere].
    destruct (Host.eqb host (messagesHost options)); cbn [negb].
    + destruct (dict_get (Response.headers res) "set-registrationtoken") as [raw|];
        [|exact Hhere].
      cbv zeta. destruct (falsy _ || falsy _ || falsy _); exact Hhere.
    + destruct (0 <? retry options); [|exact Hhere].
      destruct (IH io apiContext
                  (Some {| RegisterEndpointOptions.messagesHost := Some host;
                           RegisterEndpointOptions.retry := Some (retry options) |})
                  s1) as [more Hmore].
      exists ((request, Responded res) :: more). rewrite Hmore, Hat.
      now rewrite <- app_assoc.
Qed.

(** What line 88 does: a redirect that is followed hands the budget on as
    it is. *)
Lemma redirect_keeps_retry fuel io apiContext options s request res s1 location host :
  attempt io apiContext options s = (request, Responded res, s1) ->
  Response.statusCode res = 201 \/ Response.statusCode res = 301 ->
  dict_get (Response.headers res) "location" = Some location ->
  Url.host (url_parse location) = Some host ->
  host <> messagesHost options ->
  0 < retry options ->
  registerEndpoint (S fuel) io apiContext options s
  = registerEndpoint fuel io apiContext
      (Some {| RegisterEndpointOptions.messagesHost := Some host;
               RegisterEndpointOptions.retry := Some (retry options) |}) s1.
Proof.
  intros Hat Hcode Hloc Hhost Hneq Hretry.
  rewrite registerEndpoint_attempt, Hat.
  apply has_expected in Hcode. rewrite Hcode, Hloc. cbn [negb].
  unfold parseUri, bind at 1, ret at 1. rewrite Hhost.
  apply HostFacts.eqb_neq in Hneq. rewrite Hneq. cbn [negb].
  apply Z.ltb_lt in Hretry. now rewrite Hretry.
Qed.

(** With no budget left a redirect ends the call, after its one POST. *)
Lemma redirect_without_budget fuel io apiContext options s request res s1 location host :
  attempt io apiContext options s = (request, Responded res, s1) ->
  Response.statusCode res = 201 \/ Response.statusCode res = 301 ->
  dict_get (Response.headers res) "location" = Some location ->
  Url.host (url_parse location) = Some host ->
  host <> messagesHost options ->
  retry options <= 0 ->
  registerEndpoint (S fuel) io apiContext options s
  = (Rejected (Incident "net" None "Exceeded max tries"), s1).
Proof.
  intros Hat Hcode Hloc Hhost Hneq Hretry.
  rewrite registerEndpoint_attempt, Hat.
  apply has_expected in Hcode. rewrite Hcode, Hloc. cbn [negb].
  unfold parseUri, bind at 1, ret at 1. rewrite Hhost.
  apply HostFacts.eqb_neq in Hneq. rewrite Hneq. cbn [negb].
  apply Z.ltb_ge in Hretry. now rewrite Hretry.
Qed.

End Handshake.

(** ** The codec round trip *)

(** Stringified and parsed again, a mapping with distinct keys that meets
    the side conditions is the list of pairs it was. *)
Lemma parse_stringify_id (p : Dictionary) :
  NoDup (dict_keys p) ->
  paramsRoundTrip p = true ->
  parseHeaderParams (stringifyHeaderParams p) = p.
Proof.
  intros Hkeys Hp. unfold parseHeaderParams.
  change (stringifyHeaderParams p) with (EmptyString ++ stringifyHeaderParams p).
  rewrite (parse_stringify_fold p Hp EmptyString [] eq_refl).
  exact (fold_dict_set_fresh p [] Hkeys).
Qed.

(** The round trip as the specification compares mappings, key by key. *)
Corollary parse_stringify_lookup (p : Dictionary) (k : string) :
  NoDup (dict_keys p) ->
  paramsRoundTrip p = true ->
  dict_get (parseHeaderParams (stringifyHeaderParams p)) k = dict_get p k.
Proof. intros Hkeys Hp. now rewrite parse_stringify_id. Qed.

(** C6 (amended).  A mapping whose keys hold no `;` and no `=` and do not
    start with white space, and whose values hold no `;` and do not end with
    white space, comes back from [parseHeaderParams] as it went into
    [stringifyHeaderParams], keys in the same order; a value may hold `=`. *)
Theorem parse_stringify_roundtrip (p : Dictionary) :
  NoDup (dict_keys p) ->
  paramsRoundTrip p = true ->
  parseHeaderParams (stringifyHeaderParams p) = p.
Proof. exact (parse_stringify_id p). Qed.

Lemma parse_stringify_roundtrip_witness :
  NoDup (dict_keys Double.lockAndKey) /\
  paramsRoundTrip Double.lockAndKey = true /\
  parseHeaderParams (stringifyHeaderParams Double.lockAndKey) = Double.lockAndKey.
Proof.
  assert (Hkeys : NoDup (dict_keys Double.lockAndKey)) by distinct_keys.
  split; [exact Hkeys|]. split; [reflexivity|].
  apply (parse_stringify_roundtrip Double.lockAndKey Hkeys). reflexivity.
Defined.

(** C6 as stated fails on a value that ends with a space, although no key
    and no value holds a delimiter: the trailing space does not come back. *)
Lemma parse_stringify_trailing_space :
  noDelimiters [("skypetoken", "abc ")] = true /\
  NoDup (dict_keys [("skypetoken", "abc ")]) /\
  parseHeaderParams (stringifyHeaderParams [("skypetoken", "abc ")])
    = [("skypetoken", "abc")] /\
  parseHeaderParams (stringifyHeaderParams [("skypetoken", "abc ")])
    <> [("skypetoken", "abc ")] /\
  dict_get (parseHeaderParams (stringifyHeaderParams [("skypetoken", "abc ")])) "skypetoken"
    <> dict_get [("skypetoken", "abc ")] "skypetoken".
Proof.
  split; [reflexivity|]. split; [distinct_keys|].
  split; [reflexivity|]. split; intros H; discriminate H.
Qed.

(** ** Runs of the handshake against the test doubles *)

Module Runs.
Import Double.

Lemma bouncing_attempt (s : State) (host : Host.t) :
  host = hostA \/ host = hostB ->
  exists other location,
    (other = hostA \/ other = hostB) /\
    other <> host /\
    Url.host (url_parse location) = Some other /\
    attempt bouncing apiContext (options host 1) s
    = (request host 1,
       Responded {| Response.statusCode := 301;
                    Response.headers := [("location", location)] |},
       {| world := S (world s);
          log := (log s ++ [(request host 1,
                             Responded {| Response.statusCode := 301;
                                          Response.headers := [("location", location)] |})])%list |}).
Proof.
  intros [-> | ->].
  - exists hostB, (messagesUri_endpoints hostB).
    split; [now right|]. split; [discriminate|]. split; reflexivity.
  - exists hostA, (messagesUri_endpoints hostA).
    split; [now left|]. split; [discriminate|]. split; reflexivity.
Qed.

Lemma bouncing_pending (fuel : nat) :
  forall (s : State) (host : Host.t),
    host = hostA \/ host = hostB ->
    exists s',
      registerEndpoint fuel bouncing apiContext (options host 1) s = (Pending, s') /\
      length (log s') = (length (log s) + fuel)%nat.
Proof.
  induction fuel as [|fuel IH]; intros s host Hhost.
  - exists s. split; [reflexivity | now rewrite Nat.add_0_r].
  - destruct (bouncing_attempt s host Hhost)
      as (other & location & Hother & Hneq & Hparse & Hat).
    rewrite (redirect_keeps_retry fuel bouncing apiContext (options host 1) s
               _ _ _ location other Hat);
      [| now right | reflexivity | exact Hparse | | reflexivity].
    + match goal with
      | |- context [registerEndpoint fuel bouncing apiContext _ ?s1] =>
          destruct (IH s1 other Hother) as (s' & Hrun & Hlen)
      end.
      exists s'. split; [exact Hrun|].
      rewrite Hlen. cbn [log]. rewrite length_app. cbn [length]. lia.
    + destruct Hhost as [-> | ->]; exact Hneq.
Qed.

(** C1, on the code.  Asked with a budget of one retry, and answered by a
    service that keeps redirecting between two hosts, the call is still
    pending after any number of attempts and has made one POST per
    attempt: the budget is handed on as it is, so it never runs out. *)
Theorem redirect_budget_never_runs_out (fuel : nat) :
  fst (registerEndpoint fuel bouncing apiContext (options hostA 1) fresh)
    = Pending
  /\ posts (registerEndpoint fuel bouncing apiContext (options hostA 1) fresh)
     = fuel.
Proof.
  destruct (bouncing_pending fuel fresh hostA (or_introl eq_refl))
    as (s' & Hrun & Hlen).
  unfold posts. rewrite Hrun. split; [reflexivity | exact Hlen].
Qed.


Lemma token_only_from_valid_response_witness :
  exists tok s',
    registerEndpoint 2 redirectThenCreated apiContext (options hostA 1) fresh
      = (Resolved tok, s') /\
    exists earlier request res,
      log s' = (earlier ++ [(request, Responded res)])%list /\
      PostOptions.uri request = messagesUri_endpoints (RegistrationToken.host tok) /\
      acceptedFrom (RegistrationToken.host tok) res /\
      carries res tok.
Proof.
  eexists. eexists. split; [vm_compute; reflexivity|].
  apply (token_only_from_valid_response
           2 redirectThenCreated apiContext (options hostA 1) fresh).
  reflexivity.
Defined.

Lemma unexpected_status_is_terminal_witness :
  exists s1,
    attempt (scripted [Responded notFound]) apiContext (options hostA 2) fresh
      = (request hostA 2, Responded notFound, s1) /\
    Response.statusCode notFound <> 201 /\
    Response.statusCode notFound <> 301 /\
    registerEndpoint 1 (scripted [Responded notFound]) apiContext (options hostA 2) fresh
      = (Rejected (UnexpectedHttpStatusError notFound [201; 301] (request hostA 2)), s1) /\
    log s1 = (log fresh ++ [(request hostA 2, Responded notFound)])%list.
Proof.
  eexists. split; [reflexivity|].
  split; [discriminate|]. split; [discriminate|].
  apply (unexpected_status_is_terminal
           0 (scripted [Responded notFound]) apiContext (options hostA 2) fresh);
    [reflexivity | discriminate | discriminate].
Defined.

Lemma missing_token_field_rejects_witness :
  exists s1,
    attempt (scripted [Responded (created hostA withoutEndpointId)])
            apiContext (options hostA 2) fresh
      = (request hostA 2, Responded (created hostA withoutEndpointId), s1) /\
    acceptedFrom (messagesHost (options hostA 2)) (created hostA withoutEndpointId) /\
    dict_get (Response.headers (created hostA withoutEndpointId)) "set-registrationtoken"
      = Some withoutEndpointId /\
    (dict_get (parseHeaderParams withoutEndpointId) "registrationToken" = None
     \/ dict_get (parseHeaderParams withoutEndpointId) "expires" = None
     \/ dict_get (parseHeaderParams withoutEndpointId) "endpointId" = None) /\
    registerEndpoint 1 (scripted [Responded (created hostA withoutEndpointId)])
                     apiContext (options hostA 2) fresh
      = (Rejected (Incident "protocol" None
                     "Missing parameters for the registrationToken"), s1).
Proof.
  eexists. split; [reflexivity|]. split; [accepted|]. split; [reflexivity|].
  split; [right; right; reflexivity|].
  apply (missing_token_field_rejects
           0 (scripted [Responded (created hostA withoutEndpointId)])
           apiContext (options hostA 2) fresh
           (request hostA 2) (created hostA withoutEndpointId) _ withoutEndpointId);
    [reflexivity | accepted | reflexivity | right; right; reflexivity].
Defined.

Lemma empty_token_field_rejects_witness :
  exists s1,
    attempt (scripted [Responded (created hostA emptyToken)])
            apiContext (options hostA 2) fresh
      = (request hostA 2, Responded (created hostA emptyToken), s1) /\
    acceptedFrom (messagesHost (options hostA 2)) (created hostA emptyToken) /\
    dict_get (Response.headers (created hostA emptyToken)) "set-registrationtoken"
      = Some emptyToken /\
    (dict_get (parseHeaderParams emptyToken) "registrationToken" = Some EmptyString
     \/ dict_get (parseHeaderParams emptyToken) "expires" = Some EmptyString
     \/ dict_get (parseHeaderParams emptyToken) "endpointId" = Some EmptyString) /\
    registerEndpoint 1 (scripted [Responded (created hostA emptyToken)])
                     apiContext (options hostA 2) fresh
      = (Rejected (Incident "protocol" None
                     "Missing parameters for the registrationToken"), s1).
Proof.
  eexists. split; [reflexivity|]. split; [accepted|]. split; [reflexivity|].
  split; [left; reflexivity|].
  apply (empty_token_field_rejects
           0 (scripted [Responded (created hostA emptyToken)])
           apiContext (options hostA 2) fresh
           (request hostA 2) (created hostA emptyToken) _ emptyToken);
    [reflexivity | accepted | reflexivity | left; reflexivity].
Defined.

(** Spec 8, "expiration conversion". *)
Lemma expiration_is_seconds_times_1000_witness :
  exists tok s',
    registerEndpoint 1 (scripted [Responded (created hostA tokenHeader)])
                     apiContext (options hostA 2) fresh
      = (Resolved tok, s') /\
    dict_get (parseHeaderParams (RegistrationToken.raw tok)) "expires"
      = Some "1700000000" /\
    decimalValue "1700000000" = Some 1700000000 /\
    1000 * 1700000000 <= maxTime /\
    RegistrationToken.expirationDate tok = ValidDate 1700000000000.
Proof.
  eexists. eexists. split; [vm_compute; reflexivity|]. split; [reflexivity|].
  split; [reflexivity|]. split; [discriminate|].
  eapply (expiration_is_seconds_times_1000
            1 (scripted [Responded (created hostA tokenHeader)])
            apiContext (options hostA 2) fresh _ _ "1700000000" 1700000000);
    [vm_compute; reflexivity | reflexivity | reflexivity | discriminate].
Defined.

(** C5 as stated fails.  With [expires=abc] the call returns a token
    although the field has no decimal value; with [expires=9000000000000]
    the field has one, and the token's date is the invalid date, not that
    value times 1000. *)
Lemma expiration_not_seconds_times_1000 :
  (exists tok s',
      registerEndpoint 1 (scripted [Responded (created hostA expiresAbc)])
                       apiContext (options hostA 2) fresh
        = (Resolved tok, s') /\
      dict_get (parseHeaderParams (RegistrationToken.raw tok)) "expires" = Some "abc" /\
      decimalValue "abc" = None /\
      forall seconds,
        RegistrationToken.expirationDate tok <> ValidDate (1000 * seconds))
  /\
  (exists tok s',
      registerEndpoint 1 (scripted [Responded (created hostA expiresLate)])
                       apiContext (options hostA 2) fresh
        = (Resolved tok, s') /\
      dict_get (parseHeaderParams (RegistrationToken.raw tok)) "expires"
        = Some "9000000000000" /\
      decimalValue "9000000000000" = Some 9000000000000 /\
      RegistrationToken.expirationDate tok <> ValidDate (1000 * 9000000000000)).
Proof.
  split; eexists; eexists; (split; [vm_compute; reflexivity|]);
    (split; [reflexivity|]); (split; [reflexivity|]).
  - intros seconds H. discriminate H.
  - intros H. discriminate H.
Qed.

(** C10 as stated fails on an expires that is not a number but starts with
    one: with [expires=12abc], which is no decimal numeral, the call returns
    a token whose date is valid, 12000 milliseconds after the epoch. *)
Lemma leading_numeral_expires_is_valid :
  exists tok s',
    registerEndpoint 1 (scripted [Responded (created hostA expiresLeading)])
                     apiContext (options hostA 2) fresh
      = (Resolved tok, s') /\
    dict_get (parseHeaderParams (RegistrationToken.raw tok)) "expires" = Some "12abc" /\
    "12abc" <> EmptyString /\
    decimalValue "12abc" = None /\
    RegistrationToken.expirationDate tok = ValidDate 12000 /\
    RegistrationToken.expirationDate tok <> InvalidDate.
Proof.
  eexists. eexists. split; [vm_compute; reflexivity|].
  split; [reflexivity|]. split; [discriminate|]. split; [reflexivity|].
  split; [reflexivity | discriminate].
Qed.

Lemma non_numeric_expires_resolves_witness :
  exists s1,
    attempt (scripted [Responded (created hostA expiresAbc)])
            apiContext (options hostA 2) fresh
      = (request hostA 2, Responded (created hostA expiresAbc), s1) /\
    acceptedFrom (messagesHost (options hostA 2)) (created hostA expiresAbc) /\
    dict_get (Response.headers (created hostA expiresAbc)) "set-registrationtoken"
      = Some expiresAbc /\
    falsy (dict_get (parseHeaderParams expiresAbc) "registrationToken") = false /\
    falsy (dict_get (parseHeaderParams expiresAbc) "endpointId") = false /\
    dict_get (parseHeaderParams expiresAbc) "expires" = Some "abc" /\
    "abc" <> EmptyString /\
    nonNumeric "abc" = true /\
    exists tok,
      registerEndpoint 1 (scripted [Responded (created hostA expiresAbc)])
                       apiContext (options hostA 2) fresh
        = (Resolved tok, s1) /\
      RegistrationToken.expirationDate tok = InvalidDate /\
      RegistrationToken.raw tok = expiresAbc /\
      RegistrationToken.host tok = messagesHost (options hostA 2).
Proof.
  eexists. split; [reflexivity|]. split; [accepted|].
  do 4 (split; [reflexivity|]). split; [discriminate|]. split; [reflexivity|].
  apply (non_numeric_expires_resolves
           0 (scripted [Responded (created hostA expiresAbc)])
           apiContext (options hostA 2) fresh
           (request hostA 2) (created hostA expiresAbc) _ expiresAbc "abc");
    [reflexivity | accepted | reflexivity | reflexivity | reflexivity
     | reflexivity | discriminate | reflexivity].
Defined.

Lemma missing_location_is_type_error_witness :
  exists s1,
    attempt (scripted [Responded (createdNowhere tokenHeader)])
            apiContext (options hostA 2) fresh
      = (request hostA 2, Responded (createdNowhere tokenHeader), s1) /\
    (Response.statusCode (createdNowhere tokenHeader) = 201
     \/ Response.statusCode (createdNowhere tokenHeader) = 301) /\
    dict_get (Response.headers (createdNowhere tokenHeader)) "location" = None /\
    exists message,
      registerEndpoint 1 (scripted [Responded (createdNowhere tokenHeader)])
                       apiContext (options hostA 2) fresh
        = (Rejected (TypeError message), s1).
Proof.
  eexists. split; [reflexivity|]. split; [left; reflexivity|].
  split; [reflexivity|].
  apply (missing_location_is_type_error
           0 (scripted [Responded (createdNowhere tokenHeader)])
           apiContext (options hostA 2) fresh
           (request hostA 2) (createdNowhere tokenHeader) _);
    [reflexivity | left; reflexivity | reflexivity].
Defined.

(** Spec 8, "redirect termination": no budget, one POST. *)
Example redirect_termination :
  registerEndpoint 5 (scripted [Responded (redirectTo hostB)])
                   apiContext (options hostA 0) fresh
  = (Rejected (Incident "net" None "Exceeded max tries"),
     {| world := 1%nat;
        log := [(request hostA 0, Responded (redirectTo hostB))] |}).
Proof. reflexivity. Qed.

(** Spec 8, "redirect success": the token names host B, after two POSTs. *)
Example redirect_success :
  fst (registerEndpoint 5 redirectThenCreated apiContext (options hostA 1) fresh)
  = Resolved {| RegistrationToken.value := "abc";
                      RegistrationToken.expirationDate := ValidDate 1700000000000;
                      RegistrationToken.endpointId := "{x}";
                      RegistrationToken.raw := tokenHeader;
                      RegistrationToken.host := hostB |}
  /\ posts (registerEndpoint 5 redirectThenCreated apiContext (options hostA 1) fresh)
     = 2%nat.
Proof. split; reflexivity. Qed.

End Runs.

(** * More of the handshake *)

Section Outcomes.
Context `{Env : Environment}.

Lemma requestOptions_requestTo apiContext options time :
  requestOptions apiContext options time
  = requestTo apiContext (messagesHost options) time.
Proof. reflexivity. Qed.

(** How one pass through the body ends: it settles in the state right
    after its POST, or the answer is a redirect, there is budget, and the
    call goes on from that state against the host that was named. *)
Ltac settles :=
  left; eexists; (split; [|reflexivity]); unfold settled; discriminate.

Lemma registerEndpoint_cases fuel io apiContext options s request r s1 :
  attempt io apiContext options s = (request, r, s1) ->
  (exists p, settled p /\
             registerEndpoint (S fuel) io apiContext options s = (p, s1))
  \/
  (exists next,
      redirects (messagesHost options) r next /\
      0 < retry options /\
      registerEndpoint (S fuel) io apiContext options s
      = registerEndpoint fuel io apiContext
          (Some {| RegisterEndpointOptions.messagesHost := Some next;
                   RegisterEndpointOptions.retry := Some (retry options) |}) s1).
Proof.
  intros Hat. rewrite registerEndpoint_attempt, Hat.
  destruct r as [res|cause]; [|settles].
  destruct (has expectedStatusCodes (Response.statusCode res)) eqn:Hcode;
    cbn [negb]; [|settles].
  destruct (dict_get (Response.headers res) "location") as [location|] eqn:Hloc;
    [|settles].
  unfold parseUri, bind, ret, throw.
  destruct (Url.host (url_parse location)) as [host|] eqn:Hhost;
    [|settles].
  destruct (Host.eqb host (messagesHost options)) eqn:Heq; cbn [negb].
  - destruct (dict_get (Response.headers res) "set-registrationtoken") as [raw|];
      [|settles].
    cbv zeta. destruct (falsy _ || falsy _ || falsy _); settles.
  - destruct (0 <? retry options) eqn:Hretry; [|settles].
    right. exists host. split; [|split; [now apply Z.ltb_lt | reflexivity]].
    exists res, location. apply has_expected in Hcode.
    apply HostFacts.eqb_neq in Heq. now repeat split.
Qed.

(** The POSTs that a call adds to the log, in order. *)
Lemma registerEndpoint_trace fuel :
  forall io apiContext options s,
  exists added,
    log (snd (registerEndpoint fuel io apiContext options s)) = (log s ++ added)%list /\
    follows apiContext (messagesHost options) added /\
    (length added <= fuel)%nat.
Proof.
  induction fuel as [|fuel IH]; intros io apiContext options s.
  - exists []. cbn. rewrite app_nil_r. repeat split. lia.
  - destruct (attempt io apiContext options s) as [[request r] s1] eqn:Hat.
    pose proof (attempt_log _ _ _ _ _ _ _ Hat) as Hlog.
    assert (Hreq : exists time, request = requestTo apiContext (messagesHost options) time).
    { apply attempt_inv in Hat as (t & _ & _ & _ & -> & _). now exists t. }
    destruct (registerEndpoint_cases fuel _ _ _ _ _ _ _ Hat)
      as [(p & _ & ->) | (next & Hred & _ & ->)].
    + exists [(request, r)]. cbn [snd]. split; [exact Hlog|].
      split; [cbn; now split | cbn; lia].
    + destruct (IH io apiContext
                  (Some {| RegisterEndpointOptions.messagesHost := Some next;
                           RegisterEndpointOptions.retry := Some (retry options) |}) s1)
        as (added & Hadded & Hfollows & Hlen).
      exists ((request, r) :: added). rewrite Hadded, Hlog, <- app_assoc.
      split; [reflexivity|]. split; [|cbn; lia].
      cbn [follows]. split; [exact Hreq|].
      destruct added as [|e added]; [exact I|]. now exists next.
Qed.

(** X1.  When the transport fails the POST, the call rejects with that
    failure in the state right after the POST: nothing is retried, whatever
    the budget. *)
Theorem transport_failure_propagates fuel io apiContext options s request cause s1 :
  attempt io apiContext options s = (request, Failed cause, s1) ->
  registerEndpoint (S fuel) io apiContext options s = (Rejected (IoError cause), s1)
  /\ log s1 = (log s ++ [(request, Failed cause)])%list.
Proof.
  intros Hat. split; [|now apply attempt_log in Hat].
  now rewrite registerEndpoint_attempt, Hat.
Qed.

(** X3.  An accepted response that names another host than the one asked,
    when the budget is zero or less, makes the call reject with the net
    incident "Exceeded max tries" in the state right after its one POST;
    a token that the response may carry is not looked at. *)
Theorem redirect_without_budget_rejects
    fuel io apiContext options s request res s1 location host :
  attempt io apiContext options s = (request, Responded res, s1) ->
  Response.statusCode res = 201 \/ Response.statusCode res = 301 ->
  dict_get (Response.headers res) "location" = Some location ->
  Url.host (url_parse location) = Some host ->
  host <> messagesHost options ->
  retry options <= 0 ->
  registerEndpoint (S fuel) io apiContext options s
  = (Rejected (Incident "net" None "Exceeded max tries"), s1)
  /\ log s1 = (log s ++ [(request, Responded res)])%list.
Proof.
  intros Hat Hcode Hloc Hhost Hneq Hretry.
  split; [|now apply attempt_log in Hat].
  now apply (redirect_without_budget fuel io apiContext options s request res s1
               location host).
Qed.

(** The log after a redirect that is followed. *)
Lemma followed_redirect_log
    fuel io apiContext options s request res s1 location host time w request2 r2 w2 :
  attempt io apiContext options s = (request, Responded res, s1) ->
  Response.statusCode res = 201 \/ Response.statusCode res = 301 ->
  dict_get (Response.headers res) "location" = Some location ->
  Url.host (url_parse location) = Some host ->
  host <> messagesHost options ->
  0 < retry options ->
  getCurrentTime (world s1) = (time, w) ->
  request2 = requestTo apiContext host time ->
  HttpIo.post io request2 w = (r2, w2) ->
  exists rest,
    log (snd (registerEndpoint (S (S fuel)) io apiContext options s))
    = (log s ++ (request, Responded res) :: (request2, r2) :: rest)%list.
Proof.
  intros Hat Hcode Hloc Hhost Hneq Hretry Hclock -> Hpost.
  rewrite (redirect_keeps_retry (S fuel) io apiContext options s request res s1
             location host Hat Hcode Hloc Hhost Hneq Hretry).
  set (options2 := Some {| RegisterEndpointOptions.messagesHost := Some host;
                           RegisterEndpointOptions.retry := Some (retry options) |}).
  assert (Hat2 : attempt io apiContext options2 s1
                 = (requestTo apiContext host time, r2,
                    {| world := w2;
                       log := (log s1 ++ [(requestTo apiContext host time, r2)])%list |})).
  { unfold attempt. rewrite Hclock. rewrite requestOptions_requestTo.
    cbn [messagesHost options2 RegisterEndpointOptions.messagesHost].
    now rewrite Hpost. }
  apply attempt_log in Hat.
  destruct (registerEndpoint_cases fuel _ _ _ _ _ _ _ Hat2)
    as [(p & _ & ->) | (next & _ & _ & ->)].
  - exists []. cbn [snd log]. rewrite Hat, <- app_assoc. reflexivity.
  - destruct (registerEndpoint_trace fuel io apiContext
                (Some {| RegisterEndpointOptions.messagesHost := Some next;
                         RegisterEndpointOptions.retry := Some (retry options2) |})
                {| world := w2;
                   log := (log s1 ++ [(requestTo apiContext host time, r2)])%list |})
      as (added & -> & _ & _).
    exists added. cbn [log]. rewrite Hat, <- !app_assoc. reflexivity.
Qed.

(** X4.  A redirect that is followed starts the handshake over against the
    host that was named: the next POST goes to the endpoints of that host,
    with the same session and with headers made from a new reading of the
    clock, and it comes right after the first in the log. *)
Theorem followed_redirect_asks_named_host
    fuel io apiContext options s request res s1 location host time w request2 r2 w2 :
  attempt io apiContext options s = (request, Responded res, s1) ->
  Response.statusCode res = 201 \/ Response.statusCode res = 301 ->
  dict_get (Response.headers res) "location" = Some location ->
  Url.host (url_parse location) = Some host ->
  host <> messagesHost options ->
  0 < retry options ->
  getCurrentTime (world s1) = (time, w) ->
  request2 = requestTo apiContext host time ->
  HttpIo.post io request2 w = (r2, w2) ->
  exists rest,
    log (snd (registerEndpoint (S (S fuel)) io apiContext options s))
    = (log s ++ (request, Responded res) :: (request2, r2) :: rest)%list.
Proof. apply followed_redirect_log. Qed.

(** X2.  A location without a host does not raise the UndefinedLocationHost
    incident when [url.parse] reports the missing host as [null], as Node
    does: [null] is not [undefined] and is not the host that was asked, so
    the response counts as a redirect.  With a budget of zero or less the
    call rejects with "Exceeded max tries"; with budget it POSTs again, to
    the endpoints of [null]. *)
Theorem hostless_location_is_a_redirect
    fuel io apiContext options s request res s1 location :
  attempt io apiContext options s = (request, Responded res, s1) ->
  Response.statusCode res = 201 \/ Response.statusCode res = 301 ->
  dict_get (Response.headers res) "location" = Some location ->
  Url.host (url_parse location) = Some Host.null ->
  messagesHost options <> Host.null ->
  (retry options <= 0 ->
   registerEndpoint (S fuel) io apiContext options s
   = (Rejected (Incident "net" None "Exceeded max tries"), s1))
  /\
  (0 < retry options ->
   forall time w r2 w2,
     getCurrentTime (world s1) = (time, w) ->
     HttpIo.post io (requestTo apiContext Host.null time) w = (r2, w2) ->
     exists rest,
       log (snd (registerEndpoint (S (S fuel)) io apiContext options s))
       = (log s ++ (request, Responded res)
                :: (requestTo apiContext Host.null time, r2) :: rest)%list).
Proof.
  intros Hat Hcode Hloc Hhost Hasked.
  assert (Hneq : Host.null <> messagesHost options) by (intros E; now rewrite <- E in Hasked).
  split.
  - intros Hretry.
    now apply (redirect_without_budget fuel io apiContext options s request res s1
                 location Host.null).
  - intros Hretry time w r2 w2 Hclock Hpost.
    now apply (followed_redirect_log fuel io apiContext options s request res s1
                 location Host.null time w (requestTo apiContext Host.null time) r2 w2).
Qed.

Lemma follows_inside apiContext before :
  forall host request r e after,
    follows apiContext host (before ++ (request, r) :: e :: after)%list ->
    exists asked next,
      (exists time, request = requestTo apiContext asked time) /\
      redirects asked r next /\
      (exists time, fst e = requestTo apiContext next time).
Proof.
  induction before as [|[request0 r0] before IH]; intros host request r e after H.
  - cbn [app follows] in H. destruct H as [Hreq (next & Hred & Hrest)].
    exists host, next. split; [exact Hreq|]. split; [exact Hred|].
    destruct e as [request2 r2]. cbn [follows] in Hrest. now destruct Hrest.
  - change ((request0, r0) :: before ++ (request, r) :: e :: after)%list
      with ((request0, r0) :: (before ++ (request, r) :: e :: after))%list in H.
    cbn [follows] in H. destruct H as [_ H].
    destruct (before ++ (request, r) :: e :: after)%list eqn:E.
    + now destruct before.
    + destruct H as (next & _ & H). rewrite <- E in H. now apply IH in H.
Qed.


(** X5.  Only a redirect is retried, and it is followed where it points:
    whenever a POST of a call is not its last, it was the request built for
    some host, its answer was an accepted response (201 or 301) whose
    location has a host value, a name or [null], other than that host, and
    the POST after it was the request built for that value. *)
Theorem only_redirects_are_retried
    fuel io apiContext options (w : World) before request r e after :
  log (snd (registerEndpoint fuel io apiContext options (start w)))
    = (before ++ (request, r) :: e :: after)%list ->
  exists asked next,
    (exists time, request = requestTo apiContext asked time) /\
    redirects asked r next /\
    (exists time, fst e = requestTo apiContext next time).
Proof.
  intros Hlog.
  destruct (registerEndpoint_trace fuel io apiContext options (start w))
    as (added & Hadded & Hfollows & _).
  cbn [start log app] in Hadded. rewrite Hadded in Hlog. subst added.
  now apply follows_inside in Hfollows.
Qed.


(** X7.  With a budget of zero or less the call never takes a second turn:
    whatever the answer to its POST is, it settles in the state right after
    that POST. *)
Theorem no_budget_one_post fuel io apiContext options s request r s1 :
  attempt io apiContext options s = (request, r, s1) ->
  retry options <= 0 ->
  exists p,
    settled p /\
    registerEndpoint (S fuel) io apiContext options s = (p, s1) /\
    log s1 = (log s ++ [(request, r)])%list.
Proof.
  intros Hat Hretry.
  destruct (registerEndpoint_cases fuel _ _ _ _ _ _ _ Hat)
    as [(p & Hp & Hrun) | (next & _ & Hpos & _)]; [|lia].
  exists p. split; [exact Hp|]. split; [exact Hrun|]. now apply attempt_log in Hat.
Qed.

(** What the options default to: a call without options, or without one
    of the two fields, runs as the call with the default messages host in
    place of the missing host and 2 in place of the missing budget. *)
Theorem options_default fuel io apiContext s :
  registerEndpoint fuel io apiContext None s
  = registerEndpoint fuel io apiContext
      (Some {| RegisterEndpointOptions.messagesHost :=
               Some (Host.name SKYPEWEB_DEFAULT_MESSAGES_HOST);
               RegisterEndpointOptions.retry := Some 2 |}) s
  /\ (forall budget,
        registerEndpoint fuel io apiContext
          (Some {| RegisterEndpointOptions.messagesHost := None;
                   RegisterEndpointOptions.retry := Some budget |}) s
        = registerEndpoint fuel io apiContext
            (Some {| RegisterEndpointOptions.messagesHost :=
                       Some (Host.name SKYPEWEB_DEFAULT_MESSAGES_HOST);
                     RegisterEndpointOptions.retry := Some budget |}) s)
  /\ (forall host,
        registerEndpoint fuel io apiContext
          (Some {| RegisterEndpointOptions.messagesHost := Some host;
                   RegisterEndpointOptions.retry := None |}) s
        = registerEndpoint fuel io apiContext
            (Some {| RegisterEndpointOptions.messagesHost := Some host;
                     RegisterEndpointOptions.retry := Some 2 |}) s).
Proof. destruct fuel; repeat split; reflexivity. Qed.

(** The pass through the body on a response that is accepted, names the
    host that was asked and carries the three fields. *)
Lemma registerEndpoint_complete
    fuel io apiContext options s request res s1 raw value expires endpointId :
  attempt io apiContext options s = (request, Responded res, s1) ->
  acceptedFrom (messagesHost options) res ->
  dict_get (Response.headers res) "set-registrationtoken" = Some raw ->
  dict_get (parseHeaderParams raw) "registrationToken" = Some value ->
  dict_get (parseHeaderParams raw) "expires" = Some expires ->
  dict_get (parseHeaderParams raw) "endpointId" = Some endpointId ->
  value <> EmptyString -> expires <> EmptyString -> endpointId <> EmptyString ->
  registerEndpoint (S fuel) io apiContext options s
  = (Resolved {| RegistrationToken.value := value;
                 RegistrationToken.expirationDate :=
                   newDate (times 1000 (parseInt10 expires));
                 RegistrationToken.endpointId := endpointId;
                 RegistrationToken.raw := raw;
                 RegistrationToken.host := messagesHost options |}, s1).
Proof.
  intros Hat Hacc Hraw Hv He Hid Hv0 He0 Hid0.
  rewrite (registerEndpoint_accepted _ _ _ _ _ _ _ _ Hat Hacc), Hraw. cbv zeta.
  unfold dict_at. rewrite Hv, He, Hid.
  destruct value; [now elim Hv0|]. destruct expires; [now elim He0|].
  destruct endpointId; [now elim Hid0|]. reflexivity.
Qed.

(** X8.  An accepted response, with either of the two codes, that names the
    host that was asked and whose set-registrationtoken header parses to
    non-empty registrationToken, expires and endpointId makes the call
    resolve after that one POST, with the token made of those values: the
    header kept as it came, the host that was asked, and the date of 1000
    times what [parseInt] reads in expires. *)
Theorem complete_header_resolves
    fuel io apiContext options s request res s1 raw value expires endpointId :
  attempt io apiContext options s = (request, Responded res, s1) ->
  acceptedFrom (messagesHost options) res ->
  dict_get (Response.headers res) "set-registrationtoken" = Some raw ->
  dict_get (parseHeaderParams raw) "registrationToken" = Some value ->
  dict_get (parseHeaderParams raw) "expires" = Some expires ->
  dict_get (parseHeaderParams raw) "endpointId" = Some endpointId ->
  value <> EmptyString -> expires <> EmptyString -> endpointId <> EmptyString ->
  registerEndpoint (S fuel) io apiContext options s
  = (Resolved {| RegistrationToken.value := value;
                 RegistrationToken.expirationDate :=
                   newDate (times 1000 (parseInt10 expires));
                 RegistrationToken.endpointId := endpointId;
                 RegistrationToken.raw := raw;
                 RegistrationToken.host := messagesHost options |}, s1).
Proof.
  apply registerEndpoint_complete.
Qed.

(** X9.  An expires that is a decimal numeral too large for a date (1000
    times its value is past the last instant a date can hold) does not fail
    the call: with the other two fields in place it resolves, and the
    token's expiration is the invalid date. *)
Theorem late_expires_resolves_invalid
    fuel io apiContext options s request res s1 raw value expires endpointId seconds :
  attempt io apiContext options s = (request, Responded res, s1) ->
  acceptedFrom (messagesHost options) res ->
  dict_get (Response.headers res) "set-registrationtoken" = Some raw ->
  dict_get (parseHeaderParams raw) "registrationToken" = Some value ->
  dict_get (parseHeaderParams raw) "expires" = Some expires ->
  dict_get (parseHeaderParams raw) "endpointId" = Some endpointId ->
  value <> EmptyString -> endpointId <> EmptyString ->
  decimalValue expires = Some seconds ->
  maxTime < 1000 * seconds ->
  registerEndpoint (S fuel) io apiContext options s
  = (Resolved {| RegistrationToken.value := value;
                 RegistrationToken.expirationDate := InvalidDate;
                 RegistrationToken.endpointId := endpointId;
                 RegistrationToken.raw := raw;
                 RegistrationToken.host := messagesHost options |}, s1).
Proof.
  intros Hat Hacc Hraw Hv He Hid Hv0 Hid0 Hdec Hmax.
  assert (He0 : expires <> EmptyString) by (intros ->; discriminate Hdec).
  rewrite (registerEndpoint_complete fuel io apiContext options s request res s1
             raw value expires endpointId) by assumption.
  apply parseInt10_decimal in Hdec as [-> Hpos]. cbn [times newDate].
  destruct (Z.leb_spec (Z.abs (1000 * seconds)) maxTime); [lia | reflexivity].
Qed.

Lemma span_digits_prefix (ds : list ascii) (rest : string) :
  forallb Str.is_digit ds = true ->
  startsWithDigit rest = false ->
  Str.span_digits (string_of_list_ascii ds ++ rest) = (ds, rest).
Proof.
  intros Hds Hrest. induction ds as [|c ds IH]; cbn [string_of_list_ascii append].
  - destruct rest as [|x rest]; [reflexivity|].
    cbn in Hrest. cbn [Str.span_digits]. now rewrite Hrest.
  - cbn [forallb] in Hds. apply andb_true_iff in Hds as [Hc Hds].
    cbn [Str.span_digits]. now rewrite Hc, (IH Hds).
Qed.

Lemma digit_is_no_whitespace (c : ascii) :
  Str.is_digit c = true -> Str.is_whitespace c = false.
Proof.
  destruct c as [[] [] [] [] [] [] [] []]; intros H;
    try (vm_compute in H; discriminate H); reflexivity.
Qed.

Lemma trimStart_idempotent (s : string) :
  Str.trimStart (Str.trimStart s) = Str.trimStart s.
Proof.
  induction s as [|c s IH]; [reflexivity|]. cbn [Str.trimStart].
  destruct (Str.is_whitespace c) eqn:E; [exact IH|].
  cbn [Str.trimStart]. now rewrite E.
Qed.

Lemma parseInt10_trimStart (s : string) :
  parseInt10 (Str.trimStart s) = parseInt10 s.
Proof. unfold parseInt10. now rewrite trimStart_idempotent. Qed.

(** On a string that starts with a digit, [parseInt] reads the digits. *)
Lemma parseInt10_unsigned (c : ascii) (s : string) :
  Str.is_digit c = true ->
  parseInt10 (String c s) = Int (Str.digits_value (fst (Str.span_digits (String c s)))).
Proof.
  intros Hc.
  destruct c as [[] [] [] [] [] [] [] []];
    try (vm_compute in Hc; discriminate Hc);
    unfold parseInt10; simpl; destruct (Str.span_digits s) as [ds r]; simpl;
    f_equal; now destruct (Str.digits_value _).
Qed.

(** [parseInt] skips leading white space, reads the digits and ignores what
    comes after them. *)
Lemma parseInt10_prefix (ws : string) (ds : list ascii) (rest : string) :
  Str.all_whitespace ws = true ->
  ds <> [] ->
  forallb Str.is_digit ds = true ->
  startsWithDigit rest = false ->
  parseInt10 (ws ++ string_of_list_ascii ds ++ rest) = Int (Str.digits_value ds).
Proof.
  intros Hws Hne Hds Hrest.
  destruct ds as [|c ds]; [now elim Hne|].
  pose proof Hds as Hall. cbn [forallb] in Hds. apply andb_true_iff in Hds as [Hc _].
  rewrite <- parseInt10_trimStart.
  rewrite trimStart_whitespace;
    [| exact Hws | cbn; now apply digit_is_no_whitespace].
  change (string_of_list_ascii (c :: ds) ++ rest)
    with (String c (string_of_list_ascii ds ++ rest)).
  rewrite (parseInt10_unsigned c _ Hc).
  change (String c (string_of_list_ascii ds ++ rest))
    with (string_of_list_ascii (c :: ds) ++ rest).
  now rewrite (span_digits_prefix _ _ Hall Hrest).
Qed.

(** X10.  Only the numeral at the front of expires counts: when expires is
    white space, then decimal digits, then anything that does not start with
    a digit, the call resolves as if expires were those digits alone, with
    the date of 1000 times their value (within the range of a date). *)
Theorem expires_numeral_prefix_counts
    fuel io apiContext options s request res s1 raw value endpointId ws ds rest :
  attempt io apiContext options s = (request, Responded res, s1) ->
  acceptedFrom (messagesHost options) res ->
  dict_get (Response.headers res) "set-registrationtoken" = Some raw ->
  dict_get (parseHeaderParams raw) "registrationToken" = Some value ->
  dict_get (parseHeaderParams raw) "expires"
    = Some (ws ++ string_of_list_ascii ds ++ rest) ->
  dict_get (parseHeaderParams raw) "endpointId" = Some endpointId ->
  value <> EmptyString -> endpointId <> EmptyString ->
  Str.all_whitespace ws = true ->
  ds <> [] ->
  forallb Str.is_digit ds = true ->
  startsWithDigit rest = false ->
  1000 * Str.digits_value ds <= maxTime ->
  registerEndpoint (S fuel) io apiContext options s
  = (Resolved {| RegistrationToken.value := value;
                 RegistrationToken.expirationDate :=
                   ValidDate (1000 * Str.digits_value ds);
                 RegistrationToken.endpointId := endpointId;
                 RegistrationToken.raw := raw;
                 RegistrationToken.host := messagesHost options |}, s1).
Proof.
  intros Hat Hacc Hraw Hv He Hid Hv0 Hid0 Hws Hne Hds Hrest Hmax.
  assert (He0 : ws ++ string_of_list_ascii ds ++ rest <> EmptyString).
  { destruct ds as [|c ds]; [now elim Hne|].
    destruct ws; discriminate. }
  rewrite (registerEndpoint_complete fuel io apiContext options s request res s1
             raw value _ endpointId Hat Hacc Hraw Hv He Hid Hv0 He0 Hid0).
  rewrite (parseInt10_prefix ws ds rest Hws Hne Hds Hrest). cbn [times newDate].
  pose proof (digits_value_nonneg ds Hds).
  destruct (Z.leb_spec (Z.abs (1000 * Str.digits_value ds)) maxTime);
    [reflexivity | lia].
Qed.



Lemma plain_no_semicolon (s : string) :
  allChars plainChar s = true -> Str.contains ";" s = false.
Proof.
  induction s as [|c s IH]; [reflexivity|]. cbn [allChars Str.contains].
  intros H. apply andb_true_iff in H as [Hc Hs].
  unfold plainChar in Hc. apply andb_true_iff in Hc as [Hc _].
  apply negb_true_iff in Hc. now rewrite Hc, (IH Hs).
Qed.

Lemma plain_no_trailing_whitespace (s : string) :
  allChars plainChar s = true -> Str.ends_with_whitespace s = false.
Proof.
  induction s as [|c s IH]; [reflexivity|]. cbn [allChars].
  intros H. apply andb_true_iff in H as [Hc Hs].
  unfold plainChar in Hc. apply andb_true_iff in Hc as [_ Hc].
  apply negb_true_iff in Hc.
  destruct s as [|x s]; [exact Hc | exact (IH Hs)].
Qed.

Lemma plain_valueRoundTrips (s : string) :
  allChars plainChar s = true -> valueRoundTrips s = true.
Proof.
  intros H. unfold valueRoundTrips.
  now rewrite (plain_no_semicolon s H), (plain_no_trailing_whitespace s H).
Qed.

Lemma allChars_uint (p : ascii -> bool) (d : Decimal.uint) :
  allChars p "0123456789" = true ->
  allChars p (NilEmpty.string_of_uint d) = true.
Proof.
  intros H. cbn [allChars] in H.
  repeat (apply andb_true_iff in H as [? H]).
  induction d; cbn [NilEmpty.string_of_uint allChars];
    try reflexivity; apply andb_true_iff; now split.
Qed.

(** [String(time)] is made of digits and, at most, a minus sign. *)
Lemma allChars_of_Z (p : ascii -> bool) (time : Z) :
  allChars p "-0123456789" = true ->
  allChars p (Str.of_Z time) = true.
Proof.
  intros H. cbn [allChars] in H. apply andb_true_iff in H as [Hminus H].
  pose proof (allChars_uint p) as Hd.
  assert (Hzero : p "0"%char = true)
    by (cbn [allChars] in H; now apply andb_true_iff in H as [? _]).
  unfold Str.of_Z, NilZero.string_of_int, NilZero.string_of_uint.
  destruct (Z.to_int time) as [d|d]; destruct d;
    cbn [allChars]; rewrite ?Hminus, ?Hzero; try reflexivity;
    cbn [andb]; now apply (Hd _ H).
Qed.

(** [String(time)] holds digits and a sign, nothing the codec would trip
    over. *)
Lemma plain_of_Z (time : Z) : allChars plainChar (Str.of_Z time) = true.
Proof. now apply allChars_of_Z. Qed.

(** X12.  What a request says on the wire can be read back: when the
    application id, the digest, the client name and version and the skype
    token hold no `;` and do not end with white space, each of the three
    headers of a request parses to the mapping it was made from, so that the
    LockAndKey header yields the application id, the time as the clock read
    it, and the digest of exactly that time. *)
Theorem sent_headers_parse_back apiContext options time :
  valueRoundTrips SKYPEWEB_LOCKANDKEY_APPID = true ->
  valueRoundTrips (getLockAndKeyResponse time) = true ->
  valueRoundTrips SKYPEWEB_CLIENTINFO_NAME = true ->
  valueRoundTrips SKYPEWEB_CLIENTINFO_VERSION = true ->
  valueRoundTrips (SkypeToken.value (Context.skypeToken apiContext)) = true ->
  option_map parseHeaderParams
    (dict_get (PostOptions.headers (requestOptions apiContext options time)) "LockAndKey")
  = Some [ ("appId", SKYPEWEB_LOCKANDKEY_APPID);
           ("time", Str.of_Z time);
           ("lockAndKeyResponse",
            hmacSha256 (Buffer_from (Str.of_Z time))
                       (Buffer_from SKYPEWEB_LOCKANDKEY_APPID)
                       (Buffer_from SKYPEWEB_LOCKANDKEY_SECRET)) ]
  /\ option_map parseHeaderParams
       (dict_get (PostOptions.headers (requestOptions apiContext options time)) "ClientInfo")
     = Some clientInfoParams
  /\ option_map parseHeaderParams
       (dict_get (PostOptions.headers (requestOptions apiContext options time))
                 "Authentication")
     = Some (authenticationParams apiContext).
Proof.
  intros Happ Hdig Hname Hver Htok.
  change (dict_get (PostOptions.headers (requestOptions apiContext options time))
                   "LockAndKey")
    with (Some (stringifyHeaderParams (lockAndKeyParams time))).
  change (dict_get (PostOptions.headers (requestOptions apiContext options time))
                   "ClientInfo")
    with (Some (stringifyHeaderParams clientInfoParams)).
  change (dict_get (PostOptions.headers (requestOptions apiContext options time))
                   "Authentication")
    with (Some (stringifyHeaderParams (authenticationParams apiContext))).
  cbn [option_map].
  split; [|split]; f_equal.
  - change (parseHeaderParams (stringifyHeaderParams (lockAndKeyParams time))
            = lockAndKeyParams time).
    apply parse_stringify_id; [unfold lockAndKeyParams; distinct_keys|].
    unfold paramsRoundTrip, lockAndKeyParams. cbn [forallb fst snd].
    now rewrite Happ, Hdig, (plain_valueRoundTrips _ (plain_of_Z time)).
  - apply parse_stringify_id; [unfold clientInfoParams; distinct_keys|].
    unfold paramsRoundTrip, clientInfoParams. cbn [forallb fst snd].
    now rewrite Hname, Hver.
  - apply parse_stringify_id; [unfold authenticationParams; distinct_keys|].
    unfold paramsRoundTrip, authenticationParams. cbn [forallb fst snd].
    now rewrite Htok.
Qed.

(** On a string of code units below 128, the UTF-8 bytes are the code
    units. *)
Lemma Buffer_from_sevenBit (s : string) :
  allChars sevenBit s = true -> Buffer_from s = list_byte_of_string s.
Proof.
  unfold Buffer_from, list_byte_of_string.
  induction s as [|c s IH]; [reflexivity|].
  cbn [allChars list_ascii_of_string flat_map map]. intros H.
  apply andb_true_iff in H as [Hc Hs].
  rewrite (IH Hs). unfold utf8. unfold sevenBit in Hc. now rewrite Hc.
Qed.

Lemma to_int_not_nil (z : Z) : Z.to_int z <> Decimal.Pos Decimal.Nil /\
                               Z.to_int z <> Decimal.Neg Decimal.Nil.
Proof.
  split; intros H; pose proof (DecimalZ.of_to z) as Hz; rewrite H in Hz;
    cbn in Hz; subst z; discriminate H.
Qed.

(** X13.  The challenge is computed over an encoding of the timestamp that
    loses nothing: two timestamps whose input buffers are the same are the
    same timestamp. *)
Theorem timestamp_encoding_injective (time1 time2 : Z) :
  Buffer_from (Str.of_Z time1) = Buffer_from (Str.of_Z time2) ->
  time1 = time2.
Proof.
  rewrite !Buffer_from_sevenBit by now apply allChars_of_Z.
  unfold Str.of_Z. intros H.
  apply (f_equal string_of_list_byte) in H.
  rewrite !string_of_list_byte_of_string in H.
  apply (f_equal NilZero.int_of_string) in H.
  destruct (to_int_not_nil time1) as [H1 H1'], (to_int_not_nil time2) as [H2 H2'].
  rewrite !NilZero.isi in H by assumption.
  inversion H as [Hint]. now apply DecimalZ.to_int_inj.
Qed.

End Outcomes.

(** ** More runs against the test doubles *)

Module MoreRuns.
Import Double.

Lemma transport_failure_propagates_witness :
  exists s1,
    attempt unreachable apiContext (options hostA 2) fresh
      = (request hostA 2, Failed "ECONNRESET", s1) /\
    registerEndpoint 1 unreachable apiContext (options hostA 2) fresh
      = (Rejected (IoError "ECONNRESET"), s1) /\
    log s1 = (log fresh ++ [(request hostA 2, Failed "ECONNRESET")])%list.
Proof.
  eexists. split; [reflexivity|].
  apply (transport_failure_propagates 0 unreachable apiContext (options hostA 2) fresh).
  reflexivity.
Defined.

Lemma hostless_location_is_a_redirect_witness :
  exists s1,
    attempt (scripted [Responded relativeLocation; Responded notFound])
            apiContext (options hostA 1) fresh
      = (request hostA 1, Responded relativeLocation, s1) /\
    (Response.statusCode relativeLocation = 201
     \/ Response.statusCode relativeLocation = 301) /\
    dict_get (Response.headers relativeLocation) "location"
      = Some "/v1/users/ME/endpoints" /\
    Url.host (url_parse "/v1/users/ME/endpoints") = Some Host.null /\
    messagesHost (options hostA 1) <> Host.null /\
    (retry (options hostA 1) <= 0 ->
     registerEndpoint 1 (scripted [Responded relativeLocation; Responded notFound])
                      apiContext (options hostA 1) fresh
     = (Rejected (Incident "net" None "Exceeded max tries"), s1))
    /\
    (0 < retry (options hostA 1) ->
     forall time w r2 w2,
       getCurrentTime (world s1) = (time, w) ->
       HttpIo.post (scripted [Responded relativeLocation; Responded notFound])
                   (requestTo apiContext Host.null time) w = (r2, w2) ->
       exists rest,
         log (snd (registerEndpoint 2
                     (scripted [Responded relativeLocation; Responded notFound])
                     apiContext (options hostA 1) fresh))
         = (log fresh ++ (request hostA 1, Responded relativeLocation)
                      :: (requestTo apiContext Host.null time, r2) :: rest)%list).
Proof.
  eexists. split; [reflexivity|]. split; [right; reflexivity|].
  split; [reflexivity|]. split; [reflexivity|]. split; [discriminate|].
  apply (hostless_location_is_a_redirect
           0 (scripted [Responded relativeLocation; Responded notFound])
           apiContext (options hostA 1) fresh
           (request hostA 1) relativeLocation _ "/v1/users/ME/endpoints");
    [reflexivity | right; reflexivity | reflexivity | reflexivity | discriminate].
Defined.

(** A host-less location followed: the second POST is for [null]. *)
Example hostless_location_followed :
  map (fun e => PostOptions.uri (fst e))
      (log (snd (registerEndpoint 5
                   (scripted [Responded relativeLocation; Responded notFound])
                   apiContext (options hostA 1) fresh)))
  = [ "https://client-s.gateway.messenger.live.com/v1/users/ME/endpoints";
      "https://null/v1/users/ME/endpoints" ].
Proof. reflexivity. Qed.

Lemma redirect_without_budget_rejects_witness :
  exists s1,
    attempt (scripted [Responded createdElsewhere]) apiContext (options hostA 0) fresh
      = (request hostA 0, Responded createdElsewhere, s1) /\
    (Response.statusCode createdElsewhere = 201
     \/ Response.statusCode createdElsewhere = 301) /\
    dict_get (Response.headers createdElsewhere) "location"
      = Some (messagesUri_endpoints hostB) /\
    Url.host (url_parse (messagesUri_endpoints hostB)) = Some hostB /\
    hostB <> messagesHost (options hostA 0) /\
    retry (options hostA 0) <= 0 /\
    registerEndpoint 1 (scripted [Responded createdElsewhere])
                     apiContext (options hostA 0) fresh
      = (Rejected (Incident "net" None "Exceeded max tries"), s1) /\
    log s1 = (log fresh ++ [(request hostA 0, Responded createdElsewhere)])%list.
Proof.
  eexists. split; [reflexivity|]. split; [left; reflexivity|].
  split; [reflexivity|]. split; [reflexivity|]. split; [discriminate|].
  split; [discriminate|].
  apply (redirect_without_budget_rejects
           0 (scripted [Responded createdElsewhere]) apiContext (options hostA 0) fresh
           (request hostA 0) createdElsewhere _ (messagesUri_endpoints hostB) hostB);
    [reflexivity | left; reflexivity | reflexivity | reflexivity
     | discriminate | discriminate].
Defined.

Lemma followed_redirect_asks_named_host_witness :
  exists s1,
    attempt bouncing apiContext (options hostA 1) fresh
      = (request hostA 1, Responded (redirectTo hostB), s1) /\
    (Response.statusCode (redirectTo hostB) = 201
     \/ Response.statusCode (redirectTo hostB) = 301) /\
    dict_get (Response.headers (redirectTo hostB)) "location"
      = Some (messagesUri_endpoints hostB) /\
    Url.host (url_parse (messagesUri_endpoints hostB)) = Some hostB /\
    hostB <> messagesHost (options hostA 1) /\
    0 < retry (options hostA 1) /\
    getCurrentTime (world s1) = (1700000000, 1%nat) /\
    request hostB 1 = requestTo apiContext hostB 1700000000 /\
    HttpIo.post bouncing (request hostB 1) 1%nat = (Responded (redirectTo hostA), 2%nat) /\
    exists rest,
      log (snd (registerEndpoint 2 bouncing apiContext (options hostA 1) fresh))
      = (log fresh
         ++ (request hostA 1, Responded (redirectTo hostB))
         :: (request hostB 1, Responded (redirectTo hostA)) :: rest)%list.
Proof.
  eexists. split; [reflexivity|]. split; [right; reflexivity|].
  split; [reflexivity|]. split; [reflexivity|]. split; [discriminate|].
  split; [reflexivity|]. split; [reflexivity|]. split; [reflexivity|].
  split; [reflexivity|].
  eapply (followed_redirect_asks_named_host
           0 bouncing apiContext (options hostA 1) fresh
           (request hostA 1) (redirectTo hostB) _ (messagesUri_endpoints hostB) hostB
           1700000000 1%nat (request hostB 1) (Responded (redirectTo hostA)) 2%nat);
    [reflexivity | right; reflexivity | reflexivity | reflexivity | discriminate
     | reflexivity | reflexivity | reflexivity | reflexivity].
Defined.

Lemma only_redirects_are_retried_witness :
  log (snd (registerEndpoint 3 bouncing apiContext (options hostA 1) fresh))
    = ([] ++ (request hostA 1, Responded (redirectTo hostB))
          :: (request hostB 1, Responded (redirectTo hostA))
          :: [(request hostA 1, Responded (redirectTo hostB))])%list /\
  exists asked next,
    (exists time, request hostA 1 = requestTo apiContext asked time) /\
    redirects asked (Responded (redirectTo hostB)) next /\
    (exists time,
        fst (request hostB 1, Responded (redirectTo hostA))
        = requestTo apiContext next time).
Proof.
  split; [reflexivity|].
  apply (only_redirects_are_retried
           3 bouncing apiContext (options hostA 1) (world fresh) []
           (request hostA 1) (Responded (redirectTo hostB))
           (request hostB 1, Responded (redirectTo hostA))
           [(request hostA 1, Responded (redirectTo hostB))]).
  reflexivity.
Defined.


Lemma no_budget_one_post_witness :
  exists s1,
    attempt (scripted [Responded (redirectTo hostB)]) apiContext (options hostA 0) fresh
      = (request hostA 0, Responded (redirectTo hostB), s1) /\
    retry (options hostA 0) <= 0 /\
    exists p,
      settled p /\
      registerEndpoint 4 (scripted [Responded (redirectTo hostB)])
                       apiContext (options hostA 0) fresh = (p, s1) /\
      log s1 = (log fresh ++ [(request hostA 0, Responded (redirectTo hostB))])%list.
Proof.
  eexists. split; [reflexivity|]. split; [discriminate|].
  apply (no_budget_one_post
           3 (scripted [Responded (redirectTo hostB)]) apiContext (options hostA 0) fresh
           (request hostA 0) (Responded (redirectTo hostB)));
    [reflexivity | discriminate].
Defined.

Lemma complete_header_resolves_witness :
  exists s1,
    attempt (scripted [Responded (created hostA tokenHeader)])
            apiContext (options hostA 2) fresh
      = (request hostA 2, Responded (created hostA tokenHeader), s1) /\
    acceptedFrom (messagesHost (options hostA 2)) (created hostA tokenHeader) /\
    dict_get (Response.headers (created hostA tokenHeader)) "set-registrationtoken"
      = Some tokenHeader /\
    dict_get (parseHeaderParams tokenHeader) "registrationToken" = Some "abc" /\
    dict_get (parseHeaderParams tokenHeader) "expires" = Some "1700000000" /\
    dict_get (parseHeaderParams tokenHeader) "endpointId" = Some "{x}" /\
    "abc" <> EmptyString /\ "1700000000" <> EmptyString /\ "{x}" <> EmptyString /\
    registerEndpoint 1 (scripted [Responded (created hostA tokenHeader)])
                     apiContext (options hostA 2) fresh
    = (Resolved {| RegistrationToken.value := "abc";
                   RegistrationToken.expirationDate :=
                     newDate (times 1000 (parseInt10 "1700000000"));
                   RegistrationToken.endpointId := "{x}";
                   RegistrationToken.raw := tokenHeader;
                   RegistrationToken.host := messagesHost (options hostA 2) |}, s1).
Proof.
  eexists. split; [reflexivity|]. split; [accepted|].
  do 4 (split; [reflexivity|]). do 3 (split; [discriminate|]).
  apply (complete_header_resolves
           0 (scripted [Responded (created hostA tokenHeader)])
           apiContext (options hostA 2) fresh
           (request hostA 2) (created hostA tokenHeader) _ tokenHeader
           "abc" "1700000000" "{x}");
    [reflexivity | accepted | reflexivity | reflexivity | reflexivity | reflexivity
     | discriminate | discriminate | discriminate].
Defined.

Lemma late_expires_resolves_invalid_witness :
  exists s1,
    attempt (scripted [Responded (created hostA expiresLate)])
            apiContext (options hostA 2) fresh
      = (request hostA 2, Responded (created hostA expiresLate), s1) /\
    acceptedFrom (messagesHost (options hostA 2)) (created hostA expiresLate) /\
    dict_get (Response.headers (created hostA expiresLate)) "set-registrationtoken"
      = Some expiresLate /\
    dict_get (parseHeaderParams expiresLate) "registrationToken" = Some "abc" /\
    dict_get (parseHeaderParams expiresLate) "expires" = Some "9000000000000" /\
    dict_get (parseHeaderParams expiresLate) "endpointId" = Some "{x}" /\
    "abc" <> EmptyString /\ "{x}" <> EmptyString /\
    decimalValue "9000000000000" = Some 9000000000000 /\
    maxTime < 1000 * 9000000000000 /\
    registerEndpoint 1 (scripted [Responded (created hostA expiresLate)])
                     apiContext (options hostA 2) fresh
    = (Resolved {| RegistrationToken.value := "abc";
                   RegistrationToken.expirationDate := InvalidDate;
                   RegistrationToken.endpointId := "{x}";
                   RegistrationToken.raw := expiresLate;
                   RegistrationToken.host := messagesHost (options hostA 2) |}, s1).
Proof.
  eexists. split; [reflexivity|]. split; [accepted|].
  do 4 (split; [reflexivity|]). do 2 (split; [discriminate|]).
  split; [reflexivity|]. split; [reflexivity|].
  apply (late_expires_resolves_invalid
           0 (scripted [Responded (created hostA expiresLate)])
           apiContext (options hostA 2) fresh
           (request hostA 2) (created hostA expiresLate) _ expiresLate
           "abc" "9000000000000" "{x}" 9000000000000);
    [reflexivity | accepted | reflexivity | reflexivity | reflexivity | reflexivity
     | discriminate | discriminate | reflexivity | reflexivity].
Defined.

Lemma expires_numeral_prefix_counts_witness :
  exists s1,
    attempt (scripted [Responded (created hostA expiresPrefixed)])
            apiContext (options hostA 2) fresh
      = (request hostA 2, Responded (created hostA expiresPrefixed), s1) /\
    acceptedFrom (messagesHost (options hostA 2)) (created hostA expiresPrefixed) /\
    dict_get (Response.headers (created hostA expiresPrefixed)) "set-registrationtoken"
      = Some expiresPrefixed /\
    dict_get (parseHeaderParams expiresPrefixed) "registrationToken" = Some "abc" /\
    dict_get (parseHeaderParams expiresPrefixed) "expires"
      = Some (" " ++ string_of_list_ascii (list_ascii_of_string "1700000000") ++ "s") /\
    dict_get (parseHeaderParams expiresPrefixed) "endpointId" = Some "{x}" /\
    "abc" <> EmptyString /\ "{x}" <> EmptyString /\
    Str.all_whitespace " " = true /\
    list_ascii_of_string "1700000000" <> [] /\
    forallb Str.is_digit (list_ascii_of_string "1700000000") = true /\
    startsWithDigit "s" = false /\
    1000 * Str.digits_value (list_ascii_of_string "1700000000") <= maxTime /\
    registerEndpoint 1 (scripted [Responded (created hostA expiresPrefixed)])
                     apiContext (options hostA 2) fresh
    = (Resolved {| RegistrationToken.value := "abc";
                   RegistrationToken.expirationDate :=
                     ValidDate (1000 * Str.digits_value
                                         (list_ascii_of_string "1700000000"));
                   RegistrationToken.endpointId := "{x}";
                   RegistrationToken.raw := expiresPrefixed;
                   RegistrationToken.host := messagesHost (options hostA 2) |}, s1).
Proof.
  eexists. split; [reflexivity|]. split; [accepted|].
  do 4 (split; [reflexivity|]). do 2 (split; [discriminate|]).
  split; [reflexivity|]. split; [discriminate|]. split; [reflexivity|].
  split; [reflexivity|]. split; [discriminate|].
  apply (expires_numeral_prefix_counts
           0 (scripted [Responded (created hostA expiresPrefixed)])
           apiContext (options hostA 2) fresh
           (request hostA 2) (created hostA expiresPrefixed) _ expiresPrefixed
           "abc" "{x}" " " (list_ascii_of_string "1700000000") "s");
    [reflexivity | accepted | reflexivity | reflexivity | reflexivity | reflexivity
     | discriminate | discriminate | reflexivity | discriminate | reflexivity
     | reflexivity | discriminate].
Defined.


Lemma sent_headers_parse_back_witness :
  valueRoundTrips SKYPEWEB_LOCKANDKEY_APPID = true /\
  valueRoundTrips (getLockAndKeyResponse 1700000000) = true /\
  valueRoundTrips SKYPEWEB_CLIENTINFO_NAME = true /\
  valueRoundTrips SKYPEWEB_CLIENTINFO_VERSION = true /\
  valueRoundTrips (SkypeToken.value (Context.skypeToken apiContext)) = true /\
  option_map parseHeaderParams
    (dict_get (PostOptions.headers (request hostA 2)) "LockAndKey")
  = Some [ ("appId", "msmsgs@msnmsgr.com");
           ("time", "1700000000");
           ("lockAndKeyResponse", "5f4dcc3b") ]
  /\ option_map parseHeaderParams
       (dict_get (PostOptions.headers (request hostA 2)) "ClientInfo")
     = Some clientInfoParams
  /\ option_map parseHeaderParams
       (dict_get (PostOptions.headers (request hostA 2)) "Authentication")
     = Some [("skypetoken", "skypetoken123")].
Proof.
  do 5 (split; [reflexivity|]).
  apply (sent_headers_parse_back apiContext (options hostA 2) 1700000000);
    reflexivity.
Defined.

Lemma timestamp_encoding_injective_witness :
  Buffer_from (Str.of_Z (1700000000 + 1)) = Buffer_from (Str.of_Z 1700000001) /\
  1700000000 + 1 = 1700000001.
Proof.
  split; [reflexivity|].
  apply (timestamp_encoding_injective (1700000000 + 1) 1700000001). reflexivity.
Defined.

End MoreRuns.
